(** * Notes App: the HTTP API over the [notes] table and its agent bridge

    A shallow embedding of [notes_app/models.py], [notes_app/database.py],
    [notes_app/main.py] and [notes_app/notes_mcp.py].

    Python [int] is [Z], [str] is [string], [None]-able attributes are
    [option]s.  The storage engine is SQLite behind SQLAlchemy's session:
    the table is the list of its rows in rowid order, the session is an
    explicit state threaded through the handlers by a small state and
    exception monad. *)

From Stdlib Require Import ZArith List String Ascii Bool Lia Sorted.
From Stdlib Require Import DecimalString.
From Stdlib Require DecimalPos DecimalZ.
Import ListNotations.

Local Open Scope string_scope.
Local Open Scope list_scope.
Local Open Scope Z_scope.

(** A [datetime] value, as microseconds since the epoch. *)
Definition datetime := Z.

(** ** models.py *)
Module models.

(** An instance of the mapped class [Note].  Every attribute of a
    Python instance may be [None]: [id] and [created_at] are [None] on
    an instance built by [Note(title=..., content=...)] until the
    session flushes it. *)
Record Note := mkNote {
  id : option Z;
  title : option string;
  content : option string;
  created_at : option datetime
}.

(** A row of the table [notes]: [CREATE TABLE notes (id INTEGER PRIMARY
    KEY, title VARCHAR, content TEXT, created_at DATETIME)].  The
    primary key is never NULL and, being the only column of an INTEGER
    PRIMARY KEY, it is the row's rowid; the three other columns are
    nullable. *)
Record Row := mkRow {
  rowid : Z;
  row_title : option string;
  row_content : option string;
  row_created_at : option datetime
}.

(** What a SELECT of a row hands back as an instance. *)
Definition load (r : Row) : Note :=
  {| id := Some (rowid r);
     title := row_title r;
     content := row_content r;
     created_at := row_created_at r |}.

End models.
Import models.

(** ** The storage engine and the session (database.py) *)
Module database.

(** The committed content of [notes.db]: the rows of [notes] in rowid
    order, which is the order of a scan without ORDER BY. *)
Definition Table := list Row.

Definition rowids (tbl : Table) : list Z := map rowid tbl.

(** The largest rowid in use, [None] on an empty table. *)
Definition max_rowid (tbl : Table) : option Z :=
  match tbl with
  | [] => None
  | r :: rs => Some (fold_right Z.max (rowid r) (rowids rs))
  end.

(** The rowid an INSERT without an id receives.  The column is declared
    without AUTOINCREMENT, so the engine picks one more than the largest
    rowid currently in the table, and 1 when the table is empty.
    That is the engine's rule as long as the largest rowid is below the
    ceiling 2^63-1; at the ceiling it draws an unused rowid at random
    instead, which this definition does not follow.  A table built from
    the empty one is below the ceiling until 2^63-1 creates have been
    served ([run_ids_bounded]); the statements are about such tables, or
    assume the table below the ceiling.  A full disk is outside the
    model. *)
Definition next_rowid (tbl : Table) : Z :=
  match max_rowid tbl with
  | None => 1
  | Some m => m + 1
  end.

(** [default=datetime.utcnow]: the column default applies when the
    instance carries no value of its own. *)
Definition default_created_at (now : datetime) (v : option datetime)
  : option datetime :=
  match v with
  | Some d => Some d
  | None => Some now
  end.

(** The row an INSERT of a pending instance writes. *)
Definition insert_row (now : datetime) (o : Note) (tbl : Table) : Row :=
  {| rowid := next_rowid tbl;
     row_title := title o;
     row_content := content o;
     row_created_at := default_created_at now (created_at o) |}.

(** Exceptions a handler can end with. *)
Inductive exn :=
| HTTPException (status_code : Z) (detail : string)
| InvalidRequestError
| OverflowError.

(** What the driver can bind to a statement's parameter: a Python [int]
    that fits a signed 64-bit integer.  For any other [int] it raises
    [OverflowError] before the statement runs. *)
Definition sqlite_int (n : Z) : bool :=
  (-9223372036854775808 <=? n) && (n <? 9223372036854775808).

Inductive result (A : Type) :=
| Ok (a : A)
| Raised (e : exn).
Arguments Ok {A} a.
Arguments Raised {A} e.

(** A session made by [SessionLocal()] ([autocommit=False],
    [autoflush=False]): the table it is bound to, the instances attached
    to it (a pending one has no id yet), the primary keys marked for
    deletion, and what [datetime.utcnow] reads while the request is
    served. *)
Record Session := mkSession {
  table : Table;
  instances : list Note;
  deleted : list Z;
  utcnow : datetime
}.

Definition SessionLocal (now : datetime) (tbl : Table) : Session :=
  {| table := tbl; instances := []; deleted := []; utcnow := now |}.

(** Handlers run in the session: state passing with exceptions. *)
Definition M (A : Type) := Session -> result A * Session.

Definition ret {A} (a : A) : M A := fun s => (Ok a, s).

Definition bind {A B} (m : M A) (k : A -> M B) : M B :=
  fun s =>
    match m s with
    | (Ok a, s') => k a s'
    | (Raised e, s') => (Raised e, s')
    end.

Definition raise {A} (e : exn) : M A := fun s => (Raised e, s).

(** A handle on an attached instance: its position among the session's
    instances.  It stands for the Python reference the handler keeps. *)
Definition ref := nat.

(** [db.add(obj)] *)
Definition add (o : Note) : M ref :=
  fun s =>
    (Ok (List.length (instances s)),
     {| table := table s;
        instances := instances s ++ [o];
        deleted := deleted s;
        utcnow := utcnow s |}).

(** [db.delete(obj)]: only a persistent instance can be marked. *)
Definition delete (o : Note) : M unit :=
  fun s =>
    match id o with
    | Some k =>
        (Ok tt,
         {| table := table s;
            instances := instances s;
            deleted := deleted s ++ [k];
            utcnow := utcnow s |})
    | None => (Raised InvalidRequestError, s)
    end.

(** The INSERTs of a flush: every pending instance gets its row and, with
    it, its id and its defaults. *)
Fixpoint flush_new (now : datetime) (objs : list Note) (tbl : Table)
  : list Note * Table :=
  match objs with
  | [] => ([], tbl)
  | o :: os =>
      match id o with
      | Some _ =>
          let (os', tbl') := flush_new now os tbl in (o :: os', tbl')
      | None =>
          let r := insert_row now o tbl in
          let (os', tbl') := flush_new now os (tbl ++ [r]) in
          (load r :: os', tbl')
      end
  end.

(** The DELETEs of a flush: [DELETE FROM notes WHERE id = ?] for each
    marked key. *)
Definition flush_deleted (keys : list Z) (tbl : Table) : Table :=
  filter (fun r => negb (existsb (Z.eqb (rowid r)) keys)) tbl.

(** [db.commit()]: flush, then make the result the table's content. *)
Definition commit : M unit :=
  fun s =>
    let (objs, tbl) := flush_new (utcnow s) (instances s) (table s) in
    (Ok tt,
     {| table := flush_deleted (deleted s) tbl;
        instances := objs;
        deleted := [];
        utcnow := utcnow s |}).

(** [db.refresh(obj)]: reload the instance from its row. *)
Definition refresh (h : ref) : M Note :=
  fun s =>
    match nth_error (instances s) h with
    | Some o =>
        match id o with
        | Some k =>
            match find (fun r => rowid r =? k) (table s) with
            | Some r => (Ok (load r), s)
            | None => (Raised InvalidRequestError, s)
            end
        | None => (Raised InvalidRequestError, s)
        end
    | None => (Raised InvalidRequestError, s)
    end.

(** [db.query(Note).filter(Note.id == note_id).first()] *)
Definition query_filter_id_first (note_id : Z) : M (option Note) :=
  fun s =>
    if sqlite_int note_id then
      (Ok (option_map load (find (fun r => rowid r =? note_id) (table s))),
       s)
    else (Raised OverflowError, s).

(** OFFSET: a negative offset counts as zero. *)
Definition offset (skip : Z) (rows : Table) : Table :=
  skipn (Z.to_nat skip) rows.

(** LIMIT: a negative limit is no limit. *)
Definition limit (lim : Z) (rows : Table) : Table :=
  if lim <? 0 then rows else firstn (Z.to_nat lim) rows.

(** [db.query(Note).offset(skip).limit(limit).all()] *)
Definition query_offset_limit_all (skip lim : Z) : M (list Note) :=
  fun s =>
    if sqlite_int skip && sqlite_int lim then
      (Ok (map load (limit lim (offset skip (table s)))), s)
    else (Raised OverflowError, s).

(** [get_db]: a handler gets a fresh session for the time of the request
    and the session is closed afterwards, whatever the handler did; what
    was not committed is gone with it. *)
Definition get_db {A} (now : datetime) (handler : M A) (tbl : Table)
  : result A * Table :=
  let (r, s) := handler (SessionLocal now tbl) in (r, table s).

End database.
Import database.

Declare Scope session_scope.
Delimit Scope session_scope with session.
Notation "x <- m ;; k" := (bind m (fun x => k))
  (at level 61, m at next level, right associativity) : session_scope.
Notation "m ;;; k" := (bind m (fun _ => k))
  (at level 61, right associativity) : session_scope.

(** ** main.py *)
Module main.

(** Modelled from the spec: [schemas.py] is missing from the sources.
    [schemas.NoteCreate], the validated create request: a title and a
    content, both text. *)
Record NoteCreate := mkNoteCreate {
  nc_title : string;
  nc_content : string
}.

(** [create_note] *)
Definition create_note (note : NoteCreate) : M Note :=
  (let db_note :=
     {| id := None;
        title := Some (nc_title note);
        content := Some (nc_content note);
        created_at := None |} in
   h <- add db_note ;;
   commit ;;;
   db_note' <- refresh h ;;
   ret db_note')%session.

(** [read_notes] *)
Definition read_notes (skip lim : Z) : M (list Note) :=
  (notes <- query_offset_limit_all skip lim ;;
   ret notes)%session.

(** The acknowledgment [{"status": "success", "message": "Note deleted"}]. *)
Record Ack := mkAck {
  ack_status : string;
  ack_message : string
}.

(** [delete_note] *)
Definition delete_note (note_id : Z) : M Ack :=
  (note <- query_filter_id_first note_id ;;
   match note with
   | None => raise (HTTPException 404 "Note not found")
   | Some note =>
       delete note ;;;
       commit ;;;
       ret {| ack_status := "success"; ack_message := "Note deleted" |}
   end)%session.

End main.
Import main.

(** ** The service as a transition system on the table *)

(** A request the API serves. *)
Inductive request :=
| Create (note : NoteCreate)
| Read (skip lim : Z)
| Delete (note_id : Z).

(** The table after a request served when the clock reads [now]. *)
Definition step (tbl : Table) (served : datetime * request) : Table :=
  match served with
  | (now, Create note) => snd (get_db now (create_note note) tbl)
  | (now, Read skip lim) => snd (get_db now (read_notes skip lim) tbl)
  | (now, Delete note_id) => snd (get_db now (delete_note note_id) tbl)
  end.

(** The table after a history of requests, oldest first. *)
Definition run (history : list (datetime * request)) (tbl : Table) : Table :=
  fold_left step history tbl.

(** The id a request hands out: the id of the note a create returns. *)
Definition assigned (tbl : Table) (served : datetime * request) : list Z :=
  match served with
  | (now, Create note) =>
      match fst (get_db now (create_note note) tbl) with
      | Ok n => match id n with Some k => [k] | None => [] end
      | Raised _ => []
      end
  | _ => []
  end.

(** The ids handed out along a history, oldest first. *)
Fixpoint assigned_ids (history : list (datetime * request)) (tbl : Table)
  : list Z :=
  match history with
  | [] => []
  | served :: rest => assigned tbl served ++ assigned_ids rest (step tbl served)
  end.

(** ** JSON values, as Python sees them after [json.loads] *)

#[local] Set Warnings "-register-all".

Inductive json :=
| JNull
| JBool (b : bool)
| JInt (n : Z)
| JStr (s : string)
| JList (elements : list json)
| JDict (items : list (string * json)).

(** [d.get(key)] on the items of a dict. *)
Fixpoint dict_get (items : list (string * json)) (key : string)
  : option json :=
  match items with
  | [] => None
  | (k, v) :: rest => if String.eqb k key then Some v else dict_get rest key
  end.

(** [str(n)] for an [int]: decimal digits, a minus sign when negative. *)
Definition str_int (n : Z) : string := NilZero.string_of_int (Z.to_int n).

(** An HTTP response as the client reads it: the status and what
    [response.json()] parses, [None] when the body is not JSON. *)
Record Response := mkResponse {
  status_code : Z;
  body : option json
}.

(** ** schemas.py and the request boundary *)
Module schemas.

(** What is wrong with a field of a payload. *)
Inductive problem :=
| missing
| wrong_kind
| empty.

(** A validation error: the offending fields, each with its problem. *)
Definition ValidationError := list (string * problem).

(** The value a payload gives a field: only a JSON object has fields. *)
Definition payload_field (payload : json) (field : string) : option json :=
  match payload with
  | JDict items => dict_get items field
  | _ => None
  end.

(** A required text field of the payload. *)
Definition text_field (nonempty : bool) (payload : json) (field : string)
  : problem + string :=
  match payload_field payload field with
  | None => inl missing
  | Some (JStr s) =>
      if nonempty && String.eqb s EmptyString then inl empty else inr s
  | Some _ => inl wrong_kind
  end.

Definition problems {A} (field : string) (r : problem + A)
  : ValidationError :=
  match r with
  | inl p => [(field, p)]
  | inr _ => []
  end.

(** Modelled from the spec: [schemas.py] (the create-request shape
    [NoteCreate]) is missing from the sources.  The spec's words: the
    input is a structure with required [title] (non-empty text) and
    required [content] (text); a payload missing a required field or
    with a field of the wrong kind fails with an error identifying the
    offending fields. *)
Definition NoteCreate_validate (payload : json)
  : ValidationError + NoteCreate :=
  match text_field true payload "title",
        text_field false payload "content" with
  | inr t, inr c => inr {| nc_title := t; nc_content := c |}
  | rt, rc => inl (problems "title" rt ++ problems "content" rc)
  end.

(** Modelled from the spec: [schemas.py] (the response shape
    [NoteResponse]) is missing from the sources.  The spec's words: id,
    title, content, created_at, all present. *)
Record NoteResponse := mkNoteResponse {
  nr_id : Z;
  nr_title : string;
  nr_content : string;
  nr_created_at : datetime
}.

(** [response_model=schemas.NoteResponse]: the returned instance is
    read into the response shape; an absent attribute fails it. *)
Definition NoteResponse_validate (n : Note) : option NoteResponse :=
  match id n, title n, content n, created_at n with
  | Some i, Some t, Some c, Some d =>
      Some {| nr_id := i; nr_title := t; nr_content := c;
              nr_created_at := d |}
  | _, _, _, _ => None
  end.

End schemas.
Import schemas.

(** ** The routes of main.py, from payload to response *)
Section app.

(** The JSON encoder's text for a [datetime]. *)
Variable isoformat : datetime -> string.

Definition NoteResponse_json (r : NoteResponse) : json :=
  JDict [("id", JInt (nr_id r));
         ("title", JStr (nr_title r));
         ("content", JStr (nr_content r));
         ("created_at", JStr (isoformat (nr_created_at r)))].

Definition problem_type (p : problem) : string :=
  match p with
  | missing => "missing"
  | wrong_kind => "string_type"
  | empty => "string_too_short"
  end.

Definition ValidationError_json (errs : ValidationError) : json :=
  JDict [("detail",
          JList (map (fun e =>
                        JDict [("loc", JList [JStr "body"; JStr (fst e)]);
                               ("type", JStr (problem_type (snd e)))])
                     errs))].

(** What a handler's exception becomes: an [HTTPException] is rendered
    with its status and detail, anything else is a 500 with a plain
    text body. *)
Definition exception_response (e : exn) : Response :=
  match e with
  | HTTPException st detail =>
      {| status_code := st; body := Some (JDict [("detail", JStr detail)]) |}
  | InvalidRequestError => {| status_code := 500; body := None |}
  | OverflowError => {| status_code := 500; body := None |}
  end.

(** [POST /notes/]: the payload is validated first; only a valid one
    reaches [create_note] and its session. *)
Definition POST_notes (now : datetime) (payload : json) (tbl : Table)
  : Response * Table :=
  match NoteCreate_validate payload with
  | inl errs =>
      ({| status_code := 422; body := Some (ValidationError_json errs) |},
       tbl)
  | inr note =>
      match get_db now (create_note note) tbl with
      | (Ok n, tbl') =>
          match NoteResponse_validate n with
          | Some r =>
              ({| status_code := 200; body := Some (NoteResponse_json r) |},
               tbl')
          | None => ({| status_code := 500; body := None |}, tbl')
          end
      | (Raised e, tbl') => (exception_response e, tbl')
      end
  end.

(** [DELETE /notes/{note_id}] *)
Definition DELETE_notes (now : datetime) (note_id : Z) (tbl : Table)
  : Response * Table :=
  match get_db now (delete_note note_id) tbl with
  | (Ok ack, tbl') =>
      ({| status_code := 200;
          body := Some (JDict [("status", JStr (ack_status ack));
                               ("message", JStr (ack_message ack))]) |},
       tbl')
  | (Raised e, tbl') => (exception_response e, tbl')
  end.

End app.

(** ** notes_mcp.py *)
Section notes_mcp.

(** [str(e)] of the [HTTPStatusError] that [raise_for_status] builds
    from a response. *)
Variable HTTPStatusError_message : Response -> string.

(** [str(v)] of a list or a dict. *)
Variable py_repr : json -> string.

Definition API_BASE_URL : string := "http://127.0.0.1:8000".

(** What Python raises in the tools. *)
Inductive exception :=
| HTTPError (message : string)
| JSONDecodeError
| KeyError (key : string)
| TypeError.

(** A computation that returns or raises. *)
Definition py (A : Type) := (exception + A)%type.

Definition py_bind {A B} (m : py A) (k : A -> py B) : py B :=
  match m with
  | inl e => inl e
  | inr a => k a
  end.

(** What awaiting a request of the client gives: a response, or the
    message of the [httpx.HTTPError] it raised. *)
Definition sent := (string + Response)%type.

Definition await (r : sent) : py Response :=
  match r with
  | inl message => inl (HTTPError message)
  | inr response => inr response
  end.

Definition is_success (response : Response) : bool :=
  (200 <=? status_code response) && (status_code response <=? 299).

(** [response.raise_for_status()] *)
Definition raise_for_status (response : Response) : py unit :=
  if is_success response then inr tt
  else inl (HTTPError (HTTPStatusError_message response)).

(** [response.json()] *)
Definition response_json (response : Response) : py json :=
  match body response with
  | Some data => inr data
  | None => inl JSONDecodeError
  end.

(** [data[key]] with a text key. *)
Definition getitem (data : json) (key : string) : py json :=
  match data with
  | JDict items =>
      match dict_get items key with
      | Some v => inr v
      | None => inl (KeyError key)
      end
  | _ => inl TypeError
  end.

(** [str(v)], as an f-string formats a value. *)
Definition str (v : json) : string :=
  match v with
  | JNull => "None"
  | JBool true => "True"
  | JBool false => "False"
  | JInt n => str_int n
  | JStr s => s
  | _ => py_repr v
  end.

(** What a tool call ends with: the text it returns, or an exception
    that leaves the tool. *)
Inductive outcome :=
| Text (s : string)
| Propagated (e : exception).

(** [try: ... except httpx.HTTPError as e: return handler(str(e))] *)
Definition except_HTTPError (block : py string) (handler : string -> string)
  : outcome :=
  match block with
  | inr s => Text s
  | inl (HTTPError message) => Text (handler message)
  | inl e => Propagated e
  end.

(** [create_new_note]; [client_post url payload] is what
    [await client.post(url, json=payload)] gives. *)
Definition create_new_note (client_post : string -> json -> sent)
  (title content : string) : outcome :=
  except_HTTPError
    (py_bind (await (client_post (API_BASE_URL ++ "/notes/")%string
                       (JDict [("title", JStr title);
                               ("content", JStr content)])))
       (fun response =>
    py_bind (raise_for_status response) (fun _ =>
    py_bind (response_json response) (fun data =>
    py_bind (getitem data "id") (fun data_id =>
    inr ("Success! Note created with ID " ++ str data_id ++ ".")%string)))))
    (fun message => ("Error connecting to Notes App: " ++ message)%string).

(** [delete_note_by_id]; [client_delete url] is what
    [await client.delete(url)] gives. *)
Definition delete_note_by_id (client_delete : string -> sent)
  (note_id : Z) : outcome :=
  except_HTTPError
    (py_bind (await (client_delete
                       (API_BASE_URL ++ "/notes/" ++ str_int note_id)%string))
       (fun response =>
    if status_code response =? 404 then
      inr ("Error: Note with ID " ++ str_int note_id
             ++ " was not found.")%string
    else
      py_bind (raise_for_status response) (fun _ =>
      inr ("Note " ++ str_int note_id ++ " has been deleted.")%string)))
    (fun message => ("Error deleting note: " ++ message)%string).

End notes_mcp.

(** The network between the bridge and the API: the request gets through,
    or the client raises a transport error with this message. *)
Inductive network :=
| delivered
| failed (message : string).

(** The client's [post] when the API listens at [API_BASE_URL], holds
    [tbl] and its clock reads [now]: a request that gets through is
    answered by the route of its path, and by a 404 when there is none. *)
Definition AsyncClient_post (isoformat : datetime -> string) (net : network)
  (now : datetime) (tbl : Table) (url : string) (payload : json) : sent :=
  match net with
  | failed message => inl message
  | delivered =>
      if String.eqb url (API_BASE_URL ++ "/notes/")%string
      then inr (fst (POST_notes isoformat now payload tbl))
      else inr {| status_code := 404;
                  body := Some (JDict [("detail", JStr "Not Found")]) |}
  end.

(** Does [hay] contain [needle]? *)
Fixpoint contains (needle hay : string) : bool :=
  String.prefix needle hay ||
  match hay with
  | EmptyString => false
  | String _ rest => contains needle rest
  end.

(** ** Vocabulary of the statements *)

(** The row [create_note] writes for a validated request. *)
Definition created_row (now : datetime) (note : NoteCreate) (tbl : Table)
  : Row :=
  {| rowid := next_rowid tbl;
     row_title := Some (nc_title note);
     row_content := Some (nc_content note);
     row_created_at := Some now |}.

(** The table without the rows of primary key [note_id]. *)
Definition without (note_id : Z) (tbl : Table) : Table :=
  filter (fun r => negb (rowid r =? note_id)) tbl.

(** The acknowledgment of a delete. *)
Definition deleted_ack : Ack :=
  {| ack_status := "success"; ack_message := "Note deleted" |}.

(** A table of two notes, for the concrete runs. *)
Definition two_notes : Table :=
  [mkRow 1 (Some "A") (Some "B") (Some 7);
   mkRow 2 (Some "C") (Some "D") (Some 8)].

(** A history in which the note of the largest id is deleted before the
    next create. *)
Definition reuse_history : list (datetime * request) :=
  [(1, Create {| nc_title := "A"; nc_content := "B" |});
   (2, Delete 1);
   (3, Create {| nc_title := "C"; nc_content := "D" |})].

(** The spec's words for the create-request shape: [title] is required
    and is non-empty text. *)
Definition title_ok (payload : json) : Prop :=
  exists t, payload_field payload "title" = Some (JStr t) /\ t <> EmptyString.

(** The spec's words for the create-request shape: [content] is required
    and is text. *)
Definition content_ok (payload : json) : Prop :=
  exists c, payload_field payload "content" = Some (JStr c).

(** A malformed payload: a required field is missing, of the wrong kind,
    or the title is empty. *)
Definition malformed (payload : json) : Prop :=
  ~ (title_ok payload /\ content_ok payload).

(** The payload the bridge posts for a title and a content. *)
Definition bridge_payload (title content : string) : json :=
  JDict [("title", JStr title); ("content", JStr content)].

(** Every rowid of the table is a 64-bit integer below the ceiling
    2^63-1, so that the engine assigns the next rowid by its rule. *)
Definition below_ceiling (tbl : Table) : Prop :=
  Forall (fun k => -9223372036854775808 <= k < 9223372036854775807)
    (rowids tbl).

(** The page [read_notes] hands back for a skip and a limit: the notes of
    the rows, or the driver's [OverflowError] when one of the two does
    not fit a 64-bit integer. *)
Definition page_result (skip lim : Z) (tbl : Table) : result (list Note) :=
  if sqlite_int skip && sqlite_int lim
  then Ok (map load (limit lim (offset skip tbl)))
  else Raised OverflowError.

(** The rowids of a table are positive and strictly ascending. *)
Definition ascending (tbl : Table) : Prop :=
  StronglySorted Z.lt (rowids tbl) /\ Forall (fun k => 0 < k) (rowids tbl).

(** ** The rest of the routes and of the bridge *)

(** [response_model=List[schemas.NoteResponse]]: every returned instance
    is read into the response shape; one that fails it fails the whole
    response. *)
Fixpoint NoteResponse_validate_all (notes : list Note)
  : option (list NoteResponse) :=
  match notes with
  | [] => Some []
  | n :: rest =>
      match NoteResponse_validate n, NoteResponse_validate_all rest with
      | Some r, Some rs => Some (r :: rs)
      | _, _ => None
      end
  end.

(** A query parameter left out of the URL takes the default of the
    handler's signature. *)
Definition query_default (default : Z) (given : option Z) : Z :=
  match given with
  | Some v => v
  | None => default
  end.

(** [GET /notes/?skip=..&limit=..], with [skip: int = 0] and
    [limit: int = 100]. *)
Definition GET_notes (isoformat : datetime -> string) (now : datetime)
  (skip lim : option Z) (tbl : Table) : Response * Table :=
  match get_db now (read_notes (query_default 0 skip) (query_default 100 lim))
          tbl with
  | (Ok notes, tbl') =>
      match NoteResponse_validate_all notes with
      | Some rs =>
          ({| status_code := 200;
              body := Some (JList (map (NoteResponse_json isoformat) rs)) |},
           tbl')
      | None => ({| status_code := 500; body := None |}, tbl')
      end
  | (Raised e, tbl') => (exception_response e, tbl')
  end.

(** [s] without its prefix [p], when it has it. *)
Fixpoint strip_prefix (p s : string) : option string :=
  match p with
  | EmptyString => Some s
  | String a p' =>
      match s with
      | EmptyString => None
      | String b s' => if Ascii.eqb a b then strip_prefix p' s' else None
      end
  end.

(** The conversion of a path segment to the [int] the handler is given:
    decimal digits, with a minus sign for a negative number.  The other
    spellings Python's [int] accepts are not modelled: they are refused
    here. *)
Definition parse_int (segment : string) : option Z :=
  option_map Z.of_int (NilZero.int_of_string segment).

(** The API's answer to a DELETE on a URL: [/notes/{note_id}] is the only
    route with that method.  Without a segment the path is the one of the
    collection, which has no DELETE (405); a segment that is not an
    integer fails the validation of the path parameter (422). *)
Definition serve_DELETE (now : datetime) (url : string) (tbl : Table)
  : Response * Table :=
  match strip_prefix (API_BASE_URL ++ "/notes/")%string url with
  | None =>
      ({| status_code := 404;
          body := Some (JDict [("detail", JStr "Not Found")]) |}, tbl)
  | Some EmptyString =>
      ({| status_code := 405;
          body := Some (JDict [("detail", JStr "Method Not Allowed")]) |},
       tbl)
  | Some segment =>
      if contains "/" segment then
        ({| status_code := 404;
            body := Some (JDict [("detail", JStr "Not Found")]) |}, tbl)
      else
        match parse_int segment with
        | Some note_id => DELETE_notes now note_id tbl
        | None =>
            ({| status_code := 422;
                body := Some (ValidationError_json
                                [("note_id", wrong_kind)]) |}, tbl)
        end
  end.

(** The client's [delete] against the API. *)
Definition AsyncClient_delete (net : network) (now : datetime) (tbl : Table)
  (url : string) : sent :=
  match net with
  | failed message => inl message
  | delivered => inr (fst (serve_DELETE now url tbl))
  end.

(** The client's [get] against the API; the bridge sends no query
    parameter. *)
Definition AsyncClient_get (isoformat : datetime -> string) (net : network)
  (now : datetime) (tbl : Table) (url : string) : sent :=
  match net with
  | failed message => inl message
  | delivered =>
      if String.eqb url (API_BASE_URL ++ "/notes/")%string
      then inr (fst (GET_notes isoformat now None None tbl))
      else inr {| status_code := 404;
                  body := Some (JDict [("detail", JStr "Not Found")]) |}
  end.

(** The line feed of the f-strings. *)
Definition newline : string := String (ascii_of_nat 10) EmptyString.

(** [bool(v)]: what [if not notes] tests. *)
Definition truthy (v : json) : bool :=
  match v with
  | JNull => false
  | JBool b => b
  | JInt n => negb (n =? 0)
  | JStr s => negb (String.eqb s EmptyString)
  | JList elements => match elements with [] => false | _ => true end
  | JDict items => match items with [] => false | _ => true end
  end.

(** [for note in notes]: the elements of a list, the keys of a dict, the
    characters of a text; anything else is not iterable. *)
Definition iterate (v : json) : py (list json) :=
  match v with
  | JList elements => inr elements
  | JDict items => inr (map (fun kv => JStr (fst kv)) items)
  | JStr s =>
      inr (map (fun c => JStr (String c EmptyString)) (list_ascii_of_string s))
  | _ => inl TypeError
  end.

Section search.

Variable HTTPStatusError_message : Response -> string.
Variable py_repr : json -> string.

(** One turn of the loop of [search_notes]. *)
Definition note_line (note : json) : py string :=
  py_bind (getitem note "id") (fun note_id =>
  py_bind (getitem note "title") (fun note_title =>
  py_bind (getitem note "content") (fun note_content =>
  inr ("- ID " ++ str py_repr note_id
         ++ " | Title: " ++ str py_repr note_title
         ++ " | Content: " ++ str py_repr note_content
         ++ newline)%string))).

(** The loop of [search_notes]: [result_text += ...] for each note. *)
Fixpoint note_lines (notes : list json) (result_text : string) : py string :=
  match notes with
  | [] => inr result_text
  | note :: rest =>
      py_bind (note_line note) (fun line =>
      note_lines rest (result_text ++ line)%string)
  end.

(** [search_notes]; [client_get url] is what [await client.get(url)]
    gives. *)
Definition search_notes (client_get : string -> sent) : outcome :=
  except_HTTPError
    (py_bind (await (client_get (API_BASE_URL ++ "/notes/")%string))
       (fun response =>
    py_bind (raise_for_status HTTPStatusError_message response) (fun _ =>
    py_bind (response_json response) (fun notes =>
    if negb (truthy notes) then inr "The notebook is currently empty."
    else
      py_bind (iterate notes) (fun elements =>
      note_lines elements ("Here are the current notes:" ++ newline)%string)))))
    (fun message => ("Error reading notes: " ++ message)%string).

End search.

(** The line [search_notes] writes for a stored note. *)
Definition row_line (r : Row) : string :=
  ("- ID " ++ str_int (rowid r)
     ++ " | Title: " ++ match row_title r with Some t => t | None => "None" end
     ++ " | Content: "
     ++ match row_content r with Some c => c | None => "None" end
     ++ newline)%string.

(** Every column of every row holds a value. *)
Definition populated (tbl : Table) : Prop :=
  Forall (fun r => row_title r <> None /\ row_content r <> None
                   /\ row_created_at r <> None) tbl.

(** ** template.py *)

(** A path below the working directory, by its components; the empty
    path is [Path.cwd()] itself. *)
Definition path := list string.

Fixpoint path_eqb (p q : path) : bool :=
  match p, q with
  | [], [] => true
  | a :: p', b :: q' => String.eqb a b && path_eqb p' q'
  | _, _ => false
  end.

(** What a path names: a directory, or a regular file and its content. *)
Inductive node :=
| Dir
| File (data : string).

(** The entries below the working directory.  An entry counts only if
    the path to it leads through directories: see [stat]. *)
Definition filesystem := path -> option node.

Definition update (fs : filesystem) (p : path) (n : node) : filesystem :=
  fun q => if path_eqb q p then Some n else fs q.

(** The [OSError]s of the calls the script makes. *)
Inductive OSError :=
| FileExistsError
| FileNotFoundError
| NotADirectoryError
| IsADirectoryError.

(** The resolution of the components [todo] from the directory [dir]:
    a missing component is [FileNotFoundError], a regular file met on the
    way is [NotADirectoryError]. *)
Fixpoint resolve (fs : filesystem) (dir : path) (todo : list string)
  : OSError + node :=
  match todo with
  | [] => inr Dir
  | name :: rest =>
      match fs (dir ++ [name]), rest with
      | None, _ => inl FileNotFoundError
      | Some n, [] => inr n
      | Some Dir, _ :: _ => resolve fs (dir ++ [name]) rest
      | Some (File _), _ :: _ => inl NotADirectoryError
      end
  end.

(** [os.stat(p)], from the working directory. *)
Definition stat (fs : filesystem) (p : path) : OSError + node :=
  resolve fs [] p.

(** The process: its file system and what it has printed, a line for
    each [print]. *)
Record process := mkProcess {
  files : filesystem;
  stdout : list string
}.

(** A run of the script: it returns or raises, and leaves a process. *)
Definition IO (A : Type) := process -> (OSError + A) * process.

Definition io_ret {A} (a : A) : IO A := fun w => (inr a, w).

Definition io_bind {A B} (m : IO A) (k : A -> IO B) : IO B :=
  fun w =>
    match m w with
    | (inr a, w') => k a w'
    | (inl e, w') => (inl e, w')
    end.

(** [print(line)] *)
Definition print (line : string) : IO unit :=
  fun w => (inr tt, {| files := files w; stdout := stdout w ++ [line] |}).

(** [p.exists()]: whether [os.stat] succeeds. *)
Definition Path_exists (p : path) : IO bool :=
  fun w =>
    (inr match stat (files w) p with inr _ => true | inl _ => false end, w).

(** The directory a new entry [p] goes in: the parent has to resolve to a
    directory. *)
Definition parent_directory (p : path) : IO unit :=
  fun w =>
    match stat (files w) (removelast p) with
    | inl e => (inl e, w)
    | inr (File _) => (inl NotADirectoryError, w)
    | inr Dir => (inr tt, w)
    end.

(** [p.mkdir(exist_ok=...)]: an entry that is already there is an error,
    unless [exist_ok] is set and the entry is a directory. *)
Definition Path_mkdir (exist_ok : bool) (p : path) : IO unit :=
  io_bind (parent_directory p) (fun _ w =>
    match stat (files w) p with
    | inr Dir =>
        if exist_ok then (inr tt, w) else (inl FileExistsError, w)
    | inr (File _) => (inl FileExistsError, w)
    | inl _ =>
        (inr tt, {| files := update (files w) p Dir; stdout := stdout w |})
    end).

(** [with open(p, "w") as f: pass]: the file is created or emptied. *)
Definition open_w (p : path) : IO unit :=
  io_bind (parent_directory p) (fun _ w =>
    match stat (files w) p with
    | inr Dir => (inl IsADirectoryError, w)
    | _ =>
        (inr tt,
         {| files := update (files w) p (File EmptyString);
            stdout := stdout w |})
    end).

Section template.

(** [str(p)] for a path below the working directory. *)
Variable Path_str : path -> string.

Definition PROJECT_NAME : string := "notes_app".

Definition BASE_DIR : path := [PROJECT_NAME].

Definition static_dir : path := BASE_DIR ++ ["static"].

Definition files_to_create : list path :=
  [BASE_DIR ++ ["database.py"];
   BASE_DIR ++ ["models.py"];
   BASE_DIR ++ ["schemas.py"];
   BASE_DIR ++ ["main.py"];
   BASE_DIR ++ ["__init__.py"];
   static_dir ++ ["index.html"]].

(** The loop over [files_to_create]. *)
Fixpoint touch_all (file_paths : list path) : IO unit :=
  match file_paths with
  | [] => io_ret tt
  | file_path :: rest =>
      io_bind (open_w file_path) (fun _ =>
      io_bind (print ("📄 Created empty file: " ++ Path_str file_path)%string)
        (fun _ => touch_all rest))
  end.

(** [create_project_structure] *)
Definition create_project_structure : IO unit :=
  io_bind (Path_exists BASE_DIR) (fun base_exists =>
  io_bind (if negb base_exists then
             io_bind (Path_mkdir false BASE_DIR) (fun _ =>
             print ("📂 Created directory: " ++ Path_str BASE_DIR)%string)
           else io_ret tt) (fun _ =>
  io_bind (Path_mkdir true static_dir) (fun _ =>
  io_bind (print ("📂 Created directory: " ++ Path_str static_dir)%string)
    (fun _ =>
  io_bind (touch_all files_to_create) (fun _ =>
  print (newline ++ "🚀 Success! Project structure ready in '"
           ++ PROJECT_NAME ++ "'")%string))))).

End template.

(** The file system the script leaves when it succeeds on [fs]. *)
Definition structured (fs : filesystem) : filesystem :=
  fun q =>
    if path_eqb q BASE_DIR || path_eqb q static_dir then Some Dir
    else if existsb (path_eqb q) files_to_create then Some (File EmptyString)
         else fs q.

(** A file system on which the script has work it can do: the project
    directory and its [static] directory are missing or are directories,
    and none of the files to create is a directory. *)
Definition ready (fs : filesystem) : Prop :=
  (fs BASE_DIR = None \/ fs BASE_DIR = Some Dir)
  /\ (fs static_dir = None \/ fs static_dir = Some Dir)
  /\ Forall (fun f => fs f <> Some Dir) files_to_create.

(** An empty working directory, and one that holds a project already. *)
Definition empty_directory : filesystem := fun _ => None.

Definition old_project : filesystem :=
  update (update (update empty_directory BASE_DIR Dir)
            (BASE_DIR ++ ["main.py"]) (File "app = FastAPI()"))
    (BASE_DIR ++ ["notes.db"]) (File "SQLite format 3").

(** ** The engine *)

Lemma max_rowid_bounds (tbl : Table) (m : Z) :
  max_rowid tbl = Some m -> forall r, In r tbl -> rowid r <= m.
Proof.
  destruct tbl as [|r0 rs]; simpl; [discriminate|].
  intros [= <-] r [<-|Hin].
  - clear. induction rs as [|a rs IH]; simpl; lia.
  - induction rs as [|a rs IH]; simpl in *; [contradiction|].
    destruct Hin as [<-|Hin]; [lia|]. specialize (IH Hin). lia.
Qed.

Lemma next_rowid_above (tbl : Table) (r : Row) :
  In r tbl -> rowid r < next_rowid tbl.
Proof.
  intros Hin. unfold next_rowid.
  destruct (max_rowid tbl) as [m|] eqn:E.
  - pose proof (max_rowid_bounds tbl m E r Hin). lia.
  - destruct tbl; [contradiction|discriminate].
Qed.

Lemma next_rowid_positive (tbl : Table) :
  Forall (fun k => 0 < k) (rowids tbl) -> 0 < next_rowid tbl.
Proof.
  intros Hpos. unfold next_rowid.
  destruct tbl as [|r0 rs]; simpl; [lia|].
  inversion Hpos as [|? ? H0 _]; subst.
  assert (rowid r0 <= fold_right Z.max (rowid r0) (rowids rs)).
  { clear. induction rs; simpl; lia. }
  lia.
Qed.

Lemma find_absent (k : Z) (tbl : Table) :
  ~ In k (rowids tbl) -> find (fun r => rowid r =? k) tbl = None.
Proof.
  induction tbl as [|r rs IH]; simpl; [reflexivity|].
  intros Hn. destruct (Z.eqb_spec (rowid r) k) as [E|_].
  - exfalso. apply Hn. now left.
  - apply IH. intros Hin. apply Hn. now right.
Qed.

Lemma find_present (k : Z) (tbl : Table) :
  In k (rowids tbl) ->
  exists r, find (fun r => rowid r =? k) tbl = Some r /\ rowid r = k.
Proof.
  induction tbl as [|r rs IH]; simpl; [contradiction|].
  intros [<-|Hin].
  - exists r. now rewrite Z.eqb_refl.
  - destruct (Z.eqb_spec (rowid r) k) as [E|_]; [now exists r|now apply IH].
Qed.

Lemma find_appended (tbl : Table) (r : Row) :
  rowid r = next_rowid tbl ->
  find (fun x => rowid x =? rowid r) (tbl ++ [r]) = Some r.
Proof.
  intros Hr.
  assert (Hfresh : forall x, In x tbl -> (rowid x =? rowid r) = false).
  { intros x Hx. apply Z.eqb_neq. pose proof (next_rowid_above tbl x Hx). lia. }
  clear Hr. induction tbl as [|a tbl IH]; simpl.
  - now rewrite Z.eqb_refl.
  - rewrite Hfresh by now left. apply IH. intros x Hx. apply Hfresh. now right.
Qed.

Lemma flush_deleted_nil (tbl : Table) : flush_deleted [] tbl = tbl.
Proof.
  unfold flush_deleted. induction tbl as [|r rs IH]; [reflexivity|].
  change (r :: filter (fun r => negb (existsb (Z.eqb (rowid r)) [])) rs
          = r :: rs).
  now rewrite IH.
Qed.

Lemma flush_deleted_one (k : Z) (tbl : Table) :
  flush_deleted [k] tbl = without k tbl.
Proof.
  unfold flush_deleted, without. apply filter_ext. intros r. simpl.
  now rewrite orb_false_r.
Qed.

Lemma without_absent (k : Z) (tbl : Table) : ~ In k (rowids (without k tbl)).
Proof.
  unfold rowids, without. rewrite in_map_iff. intros [r [Hk Hin]].
  apply filter_In in Hin. destruct Hin as [_ Hne].
  rewrite Hk, Z.eqb_refl in Hne. discriminate.
Qed.

Lemma sqlite_int_spec (n : Z) :
  sqlite_int n = true
  <-> -9223372036854775808 <= n < 9223372036854775808.
Proof. unfold sqlite_int. rewrite andb_true_iff, Z.leb_le, Z.ltb_lt. tauto. Qed.

(** ** The handlers, request by request *)

(** What [create_note] does to a table, whatever the table. *)
Lemma create_note_get_db (now : datetime) (note : NoteCreate) (tbl : Table) :
  get_db now (create_note note) tbl
  = (Ok (load (created_row now note tbl)), tbl ++ [created_row now note tbl]).
Proof.
  unfold get_db, create_note, bind, add, commit, refresh, ret. simpl.
  rewrite flush_deleted_nil.
  change (insert_row now _ tbl) with (created_row now note tbl).
  change (next_rowid tbl) with (rowid (created_row now note tbl)).
  now rewrite find_appended.
Qed.

(** What [read_notes] does: a page of the table or the driver's
    exception, and the table stays as it is. *)
Lemma read_notes_get_db (now : datetime) (skip lim : Z) (tbl : Table) :
  get_db now (read_notes skip lim) tbl = (page_result skip lim tbl, tbl).
Proof.
  unfold get_db, read_notes, bind, query_offset_limit_all, page_result. simpl.
  now destruct (sqlite_int skip && sqlite_int lim).
Qed.

(** [read_notes] with a skip and a limit the driver can bind. *)
Lemma read_notes_in_range (now : datetime) (skip lim : Z) (tbl : Table) :
  sqlite_int skip = true -> sqlite_int lim = true ->
  get_db now (read_notes skip lim) tbl
  = (Ok (map load (limit lim (offset skip tbl))), tbl).
Proof.
  intros Hs Hl. rewrite read_notes_get_db. unfold page_result.
  now rewrite Hs, Hl.
Qed.

(** [delete_note] on an id the driver cannot bind. *)
Lemma delete_note_overflow (now : datetime) (note_id : Z) (tbl : Table) :
  sqlite_int note_id = false ->
  get_db now (delete_note note_id) tbl = (Raised OverflowError, tbl).
Proof.
  intros Hf. unfold get_db, delete_note, bind, query_filter_id_first. simpl.
  now rewrite Hf.
Qed.

(** [delete_note] on an id no row has. *)
Lemma delete_note_absent (now : datetime) (note_id : Z) (tbl : Table) :
  sqlite_int note_id = true ->
  ~ In note_id (rowids tbl) ->
  get_db now (delete_note note_id) tbl
  = (Raised (HTTPException 404 "Note not found"), tbl).
Proof.
  intros Hf Hn. unfold get_db, delete_note, bind, query_filter_id_first.
  simpl. now rewrite Hf, (find_absent note_id tbl Hn).
Qed.

(** [delete_note] on an id some row has. *)
Lemma delete_note_present (now : datetime) (note_id : Z) (tbl : Table) :
  sqlite_int note_id = true ->
  In note_id (rowids tbl) ->
  get_db now (delete_note note_id) tbl = (Ok deleted_ack, without note_id tbl).
Proof.
  intros Hfit Hin. destruct (find_present note_id tbl Hin) as [r [Hf Hr]].
  unfold get_db, delete_note, bind, query_filter_id_first, delete, commit, ret.
  simpl. rewrite Hfit, Hf. simpl. rewrite Hr, flush_deleted_one. reflexivity.
Qed.

Lemma page_incl (skip lim : Z) (tbl : Table) (r : Row) :
  In r (limit lim (offset skip tbl)) -> In r tbl.
Proof.
  unfold limit, offset. intros Hin.
  assert (Hskip : forall x, In x (skipn (Z.to_nat skip) tbl) -> In x tbl).
  { intros x Hx. rewrite <- (firstn_skipn (Z.to_nat skip) tbl).
    apply in_or_app. now right. }
  destruct (lim <? 0); [now apply Hskip|].
  apply Hskip.
  rewrite <- (firstn_skipn (Z.to_nat lim) (skipn (Z.to_nat skip) tbl)).
  apply in_or_app. now left.
Qed.

(** ** The invariant of the table *)

Lemma sorted_snoc (l : list Z) (a : Z) :
  StronglySorted Z.lt l -> Forall (fun x => x < a) l ->
  StronglySorted Z.lt (l ++ [a]).
Proof.
  induction 1 as [|x l Hs IH Hx]; intros Hall; simpl.
  - repeat constructor.
  - inversion Hall as [|? ? Hxa Hrest]; subst. constructor.
    + now apply IH.
    + apply Forall_app. split; [assumption|now constructor].
Qed.

Lemma rowids_filter_Forall (P : Z -> Prop) (f : Row -> bool) (tbl : Table) :
  Forall P (rowids tbl) -> Forall P (rowids (filter f tbl)).
Proof.
  induction tbl as [|r rs IH]; simpl; intros H; [constructor|].
  inversion H; subst. destruct (f r); simpl; auto.
Qed.

Lemma ascending_nil : ascending [].
Proof. split; constructor. Qed.

Lemma ascending_created (now : datetime) (note : NoteCreate) (tbl : Table) :
  ascending tbl -> ascending (tbl ++ [created_row now note tbl]).
Proof.
  intros [Hs Hp]. unfold ascending, rowids. rewrite map_app. simpl. split.
  - apply sorted_snoc; [exact Hs|].
    apply Forall_forall. intros k Hk. apply in_map_iff in Hk.
    destruct Hk as [r [<- Hr]]. now apply next_rowid_above.
  - apply Forall_app. split; [exact Hp|].
    constructor; [now apply next_rowid_positive|constructor].
Qed.

Lemma ascending_without (k : Z) (tbl : Table) :
  ascending tbl -> ascending (without k tbl).
Proof.
  intros [Hs Hp]. split; [|now apply rowids_filter_Forall].
  clear Hp. unfold without.
  induction tbl as [|r rs IH]; simpl; [constructor|].
  inversion Hs as [|? ? Hs' Hr]; subst.
  destruct (negb (rowid r =? k)); simpl; [|now apply IH].
  constructor; [now apply IH|now apply rowids_filter_Forall].
Qed.

Lemma step_delete (now : datetime) (note_id : Z) (tbl : Table) :
  step tbl (now, Delete note_id)
  = if sqlite_int note_id then without note_id tbl else tbl.
Proof.
  simpl. destruct (sqlite_int note_id) eqn:Hfit.
  - destruct (in_dec Z.eq_dec note_id (rowids tbl)) as [Hin|Hn].
    + now rewrite delete_note_present.
    + rewrite delete_note_absent by assumption. simpl.
      unfold without. symmetry. apply forallb_filter_id.
      apply forallb_forall. intros r Hr. apply negb_true_iff, Z.eqb_neq.
      intros E. apply Hn. unfold rowids. apply in_map_iff. now exists r.
  - now rewrite delete_note_overflow.
Qed.

Lemma step_ascending (tbl : Table) (served : datetime * request) :
  ascending tbl -> ascending (step tbl served).
Proof.
  destruct served as [now [note|skip lim|note_id]]; intros H.
  - simpl. rewrite create_note_get_db. simpl. now apply ascending_created.
  - simpl. now rewrite read_notes_get_db.
  - rewrite step_delete. destruct (sqlite_int note_id); [|exact H].
    now apply ascending_without.
Qed.

Lemma run_ascending (history : list (datetime * request)) (tbl : Table) :
  ascending tbl -> ascending (run history tbl).
Proof.
  unfold run. revert tbl.
  induction history as [|served rest IH]; intros tbl H; simpl; [exact H|].
  apply IH. now apply step_ascending.
Qed.

(** ** The claims *)

(** C1.  Whatever requests the service has served since the table was
    created, a create request with title [t] and content [c] appends one
    row to the table and returns it as persisted: a positive id, the
    title [t], the content [c] and a [created_at] that is not [None]. *)
Theorem create_note_returns_persisted
  (history : list (datetime * request)) (now : datetime) (t c : string) :
  let tbl := run history [] in
  exists (k : Z) (d : datetime),
    0 < k /\
    get_db now (create_note {| nc_title := t; nc_content := c |}) tbl
    = (Ok {| id := Some k; title := Some t; content := Some c;
             created_at := Some d |},
       tbl ++ [{| rowid := k; row_title := Some t; row_content := Some c;
                  row_created_at := Some d |}]).
Proof.
  intros tbl. exists (next_rowid tbl), now. split.
  - apply next_rowid_positive.
    exact (proj2 (run_ascending history [] ascending_nil)).
  - now rewrite create_note_get_db.
Qed.

(** C2, as the code has it.  Deleting an id that the driver can bind (a
    signed 64-bit integer) and that no stored note has raises the 404
    [HTTPException] with the detail "Note not found", which the route
    renders as a 404 response carrying that detail, and leaves the table
    as it was. *)
Theorem delete_note_not_found (now : datetime) (note_id : Z) (tbl : Table) :
  sqlite_int note_id = true ->
  ~ In note_id (rowids tbl) ->
  get_db now (delete_note note_id) tbl
  = (Raised (HTTPException 404 "Note not found"), tbl)
  /\ DELETE_notes now note_id tbl
     = ({| status_code := 404;
           body := Some (JDict [("detail", JStr "Note not found")]) |}, tbl).
Proof.
  intros Hfit Hn. unfold DELETE_notes.
  rewrite (delete_note_absent now note_id tbl Hfit Hn). now split.
Qed.

Lemma delete_note_not_found_witness :
  sqlite_int 999999 = true
  /\ ~ In 999999 (rowids [])
  /\ get_db 0 (delete_note 999999) []
     = (Raised (HTTPException 404 "Note not found"), []).
Proof.
  split; [reflexivity|]. split.
  - simpl. tauto.
  - apply (delete_note_not_found 0 999999 []); [reflexivity|]. simpl. tauto.
Defined.

(** C2, as stated, fails: 2^63 is the id of no stored note of the empty
    table, and deleting it raises the driver's [OverflowError], which the
    route answers with a 500 and no detail, not with the 404. *)
Lemma delete_note_out_of_range :
  ~ In 9223372036854775808 (rowids [])
  /\ get_db 0 (delete_note 9223372036854775808) []
     = (Raised OverflowError, [])
  /\ get_db 0 (delete_note 9223372036854775808) []
     <> (Raised (HTTPException 404 "Note not found"), [])
  /\ DELETE_notes 0 9223372036854775808 []
     = ({| status_code := 500; body := None |}, []).
Proof.
  split; [simpl; tauto|]. split; [reflexivity|].
  split; [discriminate|reflexivity].
Qed.

(** C3.  Deleting the id [n] of a stored note (a 64-bit integer, as every
    stored id is) returns the success acknowledgment; afterwards a list
    request leaves the table as it is and returns a page that holds no
    note of id [n] (for a skip or a limit the driver cannot bind it
    raises and returns no page at all), and deleting [n] again raises the
    404 not-found exception. *)
Theorem delete_note_removes (now : datetime) (n : Z) (tbl : Table) :
  sqlite_int n = true ->
  In n (rowids tbl) ->
  exists tbl',
    get_db now (delete_note n) tbl
    = (Ok {| ack_status := "success"; ack_message := "Note deleted" |}, tbl')
    /\ (forall now' skip lim,
          exists listed,
            get_db now' (read_notes skip lim) tbl' = (listed, tbl')
            /\ (forall notes x,
                  listed = Ok notes -> In x notes -> id x <> Some n)
            /\ (sqlite_int skip = true -> sqlite_int lim = true ->
                exists notes, listed = Ok notes))
    /\ (forall now',
          get_db now' (delete_note n) tbl'
          = (Raised (HTTPException 404 "Note not found"), tbl')).
Proof.
  intros Hfit Hin. exists (without n tbl). split; [|split].
  - now apply delete_note_present.
  - intros now' skip lim. exists (page_result skip lim (without n tbl)).
    split; [apply read_notes_get_db|]. unfold page_result. split.
    + intros notes x E Hx.
      destruct (sqlite_int skip && sqlite_int lim); [|discriminate].
      injection E as <-. apply in_map_iff in Hx. destruct Hx as [r [<- Hr]].
      apply page_incl in Hr. simpl. intros [= E].
      apply (without_absent n tbl). unfold rowids. apply in_map_iff.
      now exists r.
    + intros Hs Hl. rewrite Hs, Hl. now eexists.
  - intros now'. apply delete_note_absent; [exact Hfit|apply without_absent].
Qed.

Lemma delete_note_removes_witness :
  sqlite_int 1 = true
  /\ In 1 (rowids [mkRow 1 (Some "A") (Some "B") (Some 7)])
  /\ exists tbl',
       get_db 9 (delete_note 1) [mkRow 1 (Some "A") (Some "B") (Some 7)]
       = (Ok {| ack_status := "success"; ack_message := "Note deleted" |},
          tbl')
       /\ (forall now' skip lim,
             exists listed,
               get_db now' (read_notes skip lim) tbl' = (listed, tbl')
               /\ (forall notes x,
                     listed = Ok notes -> In x notes -> id x <> Some 1)
               /\ (sqlite_int skip = true -> sqlite_int lim = true ->
                   exists notes, listed = Ok notes))
       /\ (forall now',
             get_db now' (delete_note 1) tbl'
             = (Raised (HTTPException 404 "Note not found"), tbl')).
Proof.
  split; [reflexivity|]. split.
  - simpl. now left.
  - apply (delete_note_removes 9 1 [mkRow 1 (Some "A") (Some "B") (Some 7)]);
      [reflexivity|]. simpl. now left.
Defined.

(** C4.  On a table of N rows, N at most 100: the default page (skip 0,
    limit 100) holds N notes, one for each row in the table's order; the
    page of limit 1 holds exactly one note when the table is not empty;
    the page that skips N is empty; and the default page of the empty
    table is the empty list, returned and not raised. *)
Theorem read_notes_pages (now : datetime) (tbl : Table) :
  (List.length tbl <= 100)%nat ->
  (exists notes,
     get_db now (read_notes 0 100) tbl = (Ok notes, tbl)
     /\ notes = map load tbl
     /\ List.length notes = List.length tbl)
  /\ ((1 <= List.length tbl)%nat ->
      exists n, get_db now (read_notes 0 1) tbl = (Ok [n], tbl))
  /\ get_db now (read_notes (Z.of_nat (List.length tbl)) 100) tbl = (Ok [], tbl)
  /\ get_db now (read_notes 0 100) [] = (Ok [], []).
Proof.
  intros HN. repeat split.
  - exists (map load tbl).
    rewrite read_notes_in_range by reflexivity. unfold limit, offset.
    simpl skipn. change (100 <? 0) with false. cbv iota.
    rewrite firstn_all2 by lia. split; [reflexivity|].
    split; [reflexivity|apply length_map].
  - intros H1. destruct tbl as [|r rs]; [simpl in H1; lia|].
    exists (load r). reflexivity.
  - rewrite read_notes_in_range;
      [|apply sqlite_int_spec; lia|reflexivity].
    unfold limit, offset. rewrite Nat2Z.id, skipn_all. reflexivity.
Qed.

Lemma read_notes_pages_witness :
  (List.length two_notes <= 100)%nat
  /\ get_db 9 (read_notes 2 100) two_notes = (Ok [], two_notes).
Proof.
  split.
  - simpl. lia.
  - apply (read_notes_pages 9 two_notes). simpl. lia.
Defined.

(** C7.  Two list requests with the same skip and limit, served one after
    the other with no create or delete between them, have the same
    outcome: the same notes (or, for a skip or a limit the driver cannot
    bind, the same exception), and the table after each of them is the
    table before.  With a skip and a limit the driver can bind, the
    outcome is a page of notes. *)
Theorem read_notes_twice (now1 now2 : datetime) (skip lim : Z) (tbl : Table) :
  exists listed,
    get_db now1 (read_notes skip lim) tbl = (listed, tbl)
    /\ get_db now2 (read_notes skip lim)
         (snd (get_db now1 (read_notes skip lim) tbl))
       = (listed, tbl)
    /\ (sqlite_int skip = true -> sqlite_int lim = true ->
        exists notes, listed = Ok notes).
Proof.
  exists (page_result skip lim tbl).
  split; [apply read_notes_get_db|]. split.
  - rewrite !read_notes_get_db. reflexivity.
  - intros Hs Hl. unfold page_result. rewrite Hs, Hl. now eexists.
Qed.

Lemma read_notes_twice_witness :
  sqlite_int 1 = true /\ sqlite_int 100 = true
  /\ exists notes, page_result 1 100 two_notes = Ok notes.
Proof.
  split; [reflexivity|]. split; [reflexivity|].
  destruct (read_notes_twice 8 9 1 100 two_notes) as [listed [E [_ H]]].
  rewrite read_notes_get_db in E. injection E as <-.
  apply H; reflexivity.
Defined.

(** C10.  Deleting the id [n] of a stored note (a 64-bit integer, as
    every stored id is) leaves exactly the rows
    whose id is not [n], each with all its columns and in the order they
    had: a row is in the table afterwards if and only if it was there
    before and its id is not [n]. *)
Theorem delete_note_frame (now : datetime) (n : Z) (tbl : Table) :
  sqlite_int n = true ->
  In n (rowids tbl) ->
  exists tbl',
    get_db now (delete_note n) tbl
    = (Ok {| ack_status := "success"; ack_message := "Note deleted" |}, tbl')
    /\ tbl' = filter (fun r => negb (rowid r =? n)) tbl
    /\ (forall r, In r tbl' <-> In r tbl /\ rowid r <> n).
Proof.
  intros Hfit Hin. exists (without n tbl). split; [|split].
  - now apply delete_note_present.
  - reflexivity.
  - intros r. unfold without. rewrite filter_In, negb_true_iff, Z.eqb_neq.
    reflexivity.
Qed.

Lemma delete_note_frame_witness :
  sqlite_int 1 = true
  /\ In 1 (rowids two_notes)
  /\ exists tbl',
       get_db 9 (delete_note 1) two_notes
       = (Ok {| ack_status := "success"; ack_message := "Note deleted" |},
          tbl')
       /\ tbl' = filter (fun r => negb (rowid r =? 1)) two_notes
       /\ (forall r, In r tbl' <-> In r two_notes /\ rowid r <> 1).
Proof.
  split; [reflexivity|]. split.
  - simpl. now left.
  - apply (delete_note_frame 9 1 two_notes); [reflexivity|].
    simpl. now left.
Defined.

Lemma sorted_NoDup (l : list Z) : StronglySorted Z.lt l -> NoDup l.
Proof.
  induction 1 as [|x l Hs IH Hx]; constructor; [|exact IH].
  intros Hin. rewrite Forall_forall in Hx. specialize (Hx x Hin). lia.
Qed.

Lemma assigned_create (now : datetime) (note : NoteCreate) (tbl : Table) :
  assigned tbl (now, Create note) = [next_rowid tbl].
Proof. simpl. now rewrite create_note_get_db. Qed.

Lemma stored_ids_assigned (history : list (datetime * request)) (tbl : Table) :
  incl (rowids (run history tbl)) (rowids tbl ++ assigned_ids history tbl).
Proof.
  revert tbl. induction history as [|served rest IH]; intros tbl.
  - simpl. rewrite app_nil_r. apply incl_refl.
  - change (run (served :: rest) tbl) with (run rest (step tbl served)).
    intros k Hk. apply IH in Hk. simpl assigned_ids.
    apply in_app_or in Hk. destruct Hk as [Hk|Hk].
    + destruct served as [now [note|skip lim|note_id]].
      * rewrite assigned_create. simpl in Hk. rewrite create_note_get_db in Hk.
        simpl in Hk. unfold rowids in Hk. rewrite map_app in Hk.
        apply in_app_or in Hk. destruct Hk as [Hk|Hk].
        -- apply in_or_app. now left.
        -- apply in_or_app. right. apply in_or_app. left. exact Hk.
      * simpl in Hk. rewrite read_notes_get_db in Hk.
        apply in_or_app. now left.
      * rewrite step_delete in Hk. apply in_or_app. left.
        destruct (sqlite_int note_id); [|exact Hk].
        unfold rowids, without in *. apply in_map_iff in Hk.
        destruct Hk as [r [<- Hr]]. apply filter_In in Hr.
        apply in_map. tauto.
    + apply in_or_app. right. apply in_or_app. now right.
Qed.

(** C6, as the code has it.  Along every history of requests from the
    empty table: every stored id was handed out by a create; the stored
    ids are pairwise distinct (they ascend strictly in the table's
    order); and the id a create hands out is one more than the largest
    stored id, 1 on an empty table, hence positive and strictly greater
    than the id of every note stored at that moment. *)
Theorem ids_fresh_among_stored
  (history : list (datetime * request)) (now : datetime) (note : NoteCreate) :
  let tbl := run history [] in
  incl (rowids tbl) (assigned_ids history [])
  /\ StronglySorted Z.lt (rowids tbl)
  /\ NoDup (rowids tbl)
  /\ assigned tbl (now, Create note) = [next_rowid tbl]
  /\ 0 < next_rowid tbl
  /\ (forall j, In j (rowids tbl) -> j < next_rowid tbl).
Proof.
  intros tbl.
  destruct (run_ascending history [] ascending_nil) as [Hs Hp].
  repeat split.
  - exact (stored_ids_assigned history []).
  - exact Hs.
  - apply sorted_NoDup, Hs.
  - apply assigned_create.
  - apply next_rowid_positive, Hp.
  - intros j Hj. unfold rowids in Hj. apply in_map_iff in Hj.
    destruct Hj as [r [<- Hr]]. now apply next_rowid_above.
Qed.

(** C6, as stated, fails: after a create, the delete of its note and a
    second create, the second note bears the id 1 of the first one, so
    the ids handed out neither increase strictly nor stay unused after a
    delete. *)
Lemma ids_reused_after_delete :
  assigned_ids reuse_history [] = [1; 1]
  /\ run reuse_history [] = [mkRow 1 (Some "C") (Some "D") (Some 3)]
  /\ ~ StronglySorted Z.lt (assigned_ids reuse_history [])
  /\ ~ NoDup (assigned_ids reuse_history []).
Proof.
  assert (E : assigned_ids reuse_history [] = [1; 1]) by reflexivity.
  rewrite E. repeat split.
  - intros H. inversion H as [|? ? _ Hall]; subst.
    inversion Hall; subst. lia.
  - intros H. inversion H as [|? ? Hnin _]; subst. apply Hnin. now left.
Qed.

(** ** The request boundary *)

Lemma title_field_spec (payload : json) :
  match text_field true payload "title" with
  | inr t => payload_field payload "title" = Some (JStr t) /\ t <> EmptyString
  | inl _ => ~ title_ok payload
  end.
Proof.
  unfold text_field, title_ok.
  destruct (payload_field payload "title") as [[| | |s| |]|]; simpl;
    try (intros [t [H _]]; discriminate).
  destruct (String.eqb_spec s EmptyString) as [->|Hne].
  - intros [t [[= <-] Ht]]. now apply Ht.
  - now split.
Qed.

Lemma content_field_spec (payload : json) :
  match text_field false payload "content" with
  | inr c => payload_field payload "content" = Some (JStr c)
  | inl _ => ~ content_ok payload
  end.
Proof.
  unfold text_field, content_ok.
  destruct (payload_field payload "content") as [[| | |s| |]|]; simpl;
    try (intros [c H]; discriminate).
  reflexivity.
Qed.

Lemma POST_notes_invalid (isoformat : datetime -> string) (now : datetime)
  (payload : json) (tbl : Table) (errs : ValidationError) :
  NoteCreate_validate payload = inl errs ->
  POST_notes isoformat now payload tbl
  = ({| status_code := 422; body := Some (ValidationError_json errs) |}, tbl).
Proof. intros E. unfold POST_notes. now rewrite E. Qed.

(** C5.  A malformed payload (a required field missing or not text, or an
    empty title) fails validation with an error that names exactly the
    offending fields; the route answers 422 with that error whatever the
    table holds and whatever the clock reads, and the table is left as it
    was. *)
Theorem malformed_payload_rejected (isoformat : datetime -> string)
  (payload : json) :
  malformed payload ->
  exists errs,
    NoteCreate_validate payload = inl errs
    /\ errs <> []
    /\ (forall f,
          In f (map fst errs)
          <-> (f = "title" /\ ~ title_ok payload)
              \/ (f = "content" /\ ~ content_ok payload))
    /\ (forall now tbl,
          POST_notes isoformat now payload tbl
          = ({| status_code := 422;
                body := Some (ValidationError_json errs) |}, tbl)).
Proof.
  intros Hbad.
  pose proof (title_field_spec payload) as Ht.
  pose proof (content_field_spec payload) as Hc.
  assert (Hne : "title" <> "content") by discriminate.
  assert (Hv : exists errs,
             NoteCreate_validate payload = inl errs
             /\ errs <> []
             /\ (forall f,
                   In f (map fst errs)
                   <-> (f = "title" /\ ~ title_ok payload)
                       \/ (f = "content" /\ ~ content_ok payload))).
  { unfold NoteCreate_validate.
    destruct (text_field true payload "title") as [p1|t];
      destruct (text_field false payload "content") as [p2|c]; simpl.
    - eexists. split; [reflexivity|]. split; [discriminate|].
      intros f. simpl. split.
      + intros [<-|[<-|[]]]; [left|right]; now split.
      + intros [[-> _]|[-> _]]; auto.
    - eexists. split; [reflexivity|]. split; [discriminate|].
      intros f. simpl. split.
      + intros [<-|[]]. left. now split.
      + intros [[-> _]|[-> Hn]]; [auto|]. exfalso. apply Hn. now exists c.
    - eexists. split; [reflexivity|]. split; [discriminate|].
      intros f. simpl. split.
      + intros [<-|[]]. right. now split.
      + intros [[-> Hn]|[-> _]]; [|auto]. exfalso. apply Hn.
        exists t. exact Ht.
    - exfalso. apply Hbad. split; [now exists t|now exists c]. }
  destruct Hv as [errs [E [Hnil Hf]]]. exists errs.
  repeat split; try assumption; try (now apply Hf).
  intros now tbl. now apply POST_notes_invalid.
Qed.

Lemma malformed_payload_rejected_witness :
  malformed (JDict [("title", JStr EmptyString); ("content", JInt 3)])
  /\ exists errs,
       NoteCreate_validate
         (JDict [("title", JStr EmptyString); ("content", JInt 3)])
       = inl errs
       /\ errs <> []
       /\ (forall f,
             In f (map fst errs)
             <-> (f = "title"
                  /\ ~ title_ok (JDict [("title", JStr EmptyString);
                                        ("content", JInt 3)]))
                 \/ (f = "content"
                     /\ ~ content_ok (JDict [("title", JStr EmptyString);
                                             ("content", JInt 3)])))
       /\ (forall now tbl,
             POST_notes (fun _ => "2026-01-01T00:00:00") now
               (JDict [("title", JStr EmptyString); ("content", JInt 3)]) tbl
             = ({| status_code := 422;
                   body := Some (ValidationError_json errs) |}, tbl)).
Proof.
  assert (H : malformed (JDict [("title", JStr EmptyString);
                                ("content", JInt 3)])).
  { intros [_ [c Hc]]. simpl in Hc. discriminate. }
  split; [exact H|].
  exact (malformed_payload_rejected (fun _ => "2026-01-01T00:00:00")
           (JDict [("title", JStr EmptyString); ("content", JInt 3)]) H).
Defined.

(** ** The bridge *)

Lemma prefix_app (needle rest : string) :
  String.prefix needle (needle ++ rest) = true.
Proof.
  induction needle as [|a needle IH]; simpl.
  - now destruct rest.
  - destruct (Ascii.ascii_dec a a) as [_|Hne]; [exact IH|now elim Hne].
Qed.

Lemma contains_prefix (needle hay : string) :
  String.prefix needle hay = true -> contains needle hay = true.
Proof. intros H. destruct hay; cbn [contains]; now rewrite H. Qed.

Lemma contains_app (needle before after : string) :
  contains needle (before ++ needle ++ after) = true.
Proof.
  induction before as [|a before IH].
  - change (contains needle (needle ++ after) = true).
    apply contains_prefix, prefix_app.
  - cbn [append contains]. rewrite IH. apply orb_true_r.
Qed.

Lemma validate_bridge_payload (title content : string) :
  NoteCreate_validate (bridge_payload title content)
  = if String.eqb title EmptyString then inl [("title", empty)]
    else inr {| nc_title := title; nc_content := content |}.
Proof.
  unfold NoteCreate_validate, text_field. simpl.
  now destruct (String.eqb title EmptyString).
Qed.

(** What the API answers the bridge's create request. *)
Lemma POST_notes_bridge (isoformat : datetime -> string) (now : datetime)
  (title content : string) (tbl : Table) :
  POST_notes isoformat now (bridge_payload title content) tbl
  = if String.eqb title EmptyString
    then ({| status_code := 422;
             body := Some (ValidationError_json [("title", empty)]) |}, tbl)
    else ({| status_code := 200;
             body := Some (NoteResponse_json isoformat
                             {| nr_id := next_rowid tbl;
                                nr_title := title;
                                nr_content := content;
                                nr_created_at := now |}) |},
          tbl ++ [created_row now {| nc_title := title;
                                     nc_content := content |} tbl]).
Proof.
  unfold POST_notes. rewrite validate_bridge_payload.
  destruct (String.eqb title EmptyString); [reflexivity|].
  now rewrite create_note_get_db.
Qed.

(** The create tool against the API, behind any network. *)
Lemma create_new_note_api_text
  (isoformat : datetime -> string)
  (HTTPStatusError_message : Response -> string) (py_repr : json -> string)
  (net : network) (now : datetime) (tbl : Table) (title content : string) :
  exists s,
    create_new_note HTTPStatusError_message py_repr
      (AsyncClient_post isoformat net now tbl) title content
    = Text s
    /\ match net with
       | failed message =>
           s = ("Error connecting to Notes App: " ++ message)%string
       | delivered =>
           let (response, tbl') :=
             POST_notes isoformat now (bridge_payload title content) tbl in
           if is_success response
           then contains "Success" s = true
                /\ exists r data,
                     tbl' = tbl ++ [r]
                     /\ body response = Some data
                     /\ dict_get
                          match data with JDict items => items | _ => [] end
                          "id"
                        = Some (JInt (rowid r))
                     /\ contains (str_int (rowid r)) s = true
           else s = ("Error connecting to Notes App: "
                       ++ HTTPStatusError_message response)%string
       end.
Proof.
  destruct net as [|message].
  - unfold create_new_note, AsyncClient_post.
    rewrite String.eqb_refl.
    change (JDict [("title", JStr title); ("content", JStr content)])
      with (bridge_payload title content).
    rewrite POST_notes_bridge.
    destruct (String.eqb title EmptyString).
    + eexists. split; reflexivity.
    + eexists. split; [reflexivity|]. split; [reflexivity|].
      eexists. eexists. split; [reflexivity|]. split; [reflexivity|].
      split; [reflexivity|].
      apply (contains_app (str_int (next_rowid tbl))
               "Success! Note created with ID " ".").
  - eexists. split; reflexivity.
Qed.


(** C8.  The create tool returns text in each of these cases, whatever
    the server is.  When the client raises an [httpx.HTTPError], and
    when the answer has any status that is not a success (a validation
    failure, a server error, anything else), it returns the error line
    with the error's message.  When the answer is a success whose JSON
    holds an id, it returns the line that contains "Success" and that
    id.  Against the API, behind any network and on any table the
    service has built, these are the only cases, so the tool lets no
    exception out there: a request that does not get through gives the
    error line; a success answer gives the line with "Success" and the
    decimal id of the row the API inserted, which is the id in its
    response; any other answer gives the error line with the status
    error's message. *)
Theorem create_new_note_returns_text
  (isoformat : datetime -> string)
  (HTTPStatusError_message : Response -> string) (py_repr : json -> string)
  (client_post : string -> json -> sent)
  (net : network) (now : datetime) (history : list (datetime * request))
  (title content : string) :
  (forall message,
     client_post (API_BASE_URL ++ "/notes/")%string
       (bridge_payload title content) = inl message ->
     create_new_note HTTPStatusError_message py_repr client_post title content
     = Text ("Error connecting to Notes App: " ++ message)%string)
  /\ (forall response,
        client_post (API_BASE_URL ++ "/notes/")%string
          (bridge_payload title content) = inr response ->
        is_success response = false ->
        create_new_note HTTPStatusError_message py_repr client_post
          title content
        = Text ("Error connecting to Notes App: "
                  ++ HTTPStatusError_message response)%string)
  /\ (forall response data v,
        client_post (API_BASE_URL ++ "/notes/")%string
          (bridge_payload title content) = inr response ->
        is_success response = true ->
        body response = Some data ->
        getitem data "id" = inr v ->
        exists s,
          create_new_note HTTPStatusError_message py_repr client_post
            title content
          = Text s
          /\ s = ("Success! Note created with ID " ++ str py_repr v
                    ++ ".")%string
          /\ contains "Success" s = true
          /\ contains (str py_repr v) s = true)
  /\ (exists s,
         create_new_note HTTPStatusError_message py_repr
           (AsyncClient_post isoformat net now (run history [])) title content
         = Text s
         /\ match net with
            | failed message =>
                s = ("Error connecting to Notes App: " ++ message)%string
            | delivered =>
                let (response, tbl') :=
                  POST_notes isoformat now (bridge_payload title content)
                    (run history []) in
                if is_success response
                then contains "Success" s = true
                     /\ exists r data,
                          tbl' = run history [] ++ [r]
                          /\ body response = Some data
                          /\ dict_get
                               match data with JDict items => items | _ => [] end
                               "id"
                             = Some (JInt (rowid r))
                          /\ contains (str_int (rowid r)) s = true
                else s = ("Error connecting to Notes App: "
                            ++ HTTPStatusError_message response)%string
            end).
Proof.
  split; [|split; [|split]].
  - intros message E. unfold create_new_note.
    change (JDict [("title", JStr title); ("content", JStr content)])
      with (bridge_payload title content).
    now rewrite E.
  - intros response E Hko. unfold create_new_note.
    change (JDict [("title", JStr title); ("content", JStr content)])
      with (bridge_payload title content).
    rewrite E. cbn [await py_bind]. unfold raise_for_status.
    now rewrite Hko.
  - intros response data v E Hok Hb Hid. unfold create_new_note.
    change (JDict [("title", JStr title); ("content", JStr content)])
      with (bridge_payload title content).
    rewrite E. cbn [await py_bind]. unfold raise_for_status, response_json.
    rewrite Hok, Hb. cbn [py_bind]. rewrite Hid. cbn [py_bind except_HTTPError].
    eexists. split; [reflexivity|]. split; [reflexivity|].
    split; [reflexivity|].
    apply (contains_app (str py_repr v) "Success! Note created with ID " ".").
  - exact (create_new_note_api_text isoformat HTTPStatusError_message py_repr
             net now (run history []) title content).
Qed.

Lemma create_new_note_returns_text_witness :
  is_success {| status_code := 500; body := None |} = false
  /\ create_new_note (fun r => str_int (status_code r)) (fun _ => "?")
       (fun _ _ => inr {| status_code := 500; body := None |}) "E" "F"
     = Text "Error connecting to Notes App: 500".
Proof.
  split; [reflexivity|].
  destruct (create_new_note_returns_text (fun _ => "2026-01-01T00:00:00")
              (fun r => str_int (status_code r)) (fun _ => "?")
              (fun _ _ => inr {| status_code := 500; body := None |})
              delivered 9 reuse_history "E" "F") as [_ [H _]].
  apply (H {| status_code := 500; body := None |}); reflexivity.
Defined.

(** C9.  The delete tool returns text and lets no exception out, and the
    text is one of three: the success line, the not-found line (returned
    whenever the API answers 404), or the failure line with the error's
    message.  The three differ from one another whatever the ids and the
    message are. *)
Theorem delete_note_by_id_outcomes
  (HTTPStatusError_message : Response -> string)
  (client_delete : string -> sent) (note_id : Z) :
  let answer :=
    client_delete (API_BASE_URL ++ "/notes/" ++ str_int note_id)%string in
  let out :=
    delete_note_by_id HTTPStatusError_message client_delete note_id in
  let success (k : Z) :=
    ("Note " ++ str_int k ++ " has been deleted.")%string in
  let not_found (k : Z) :=
    ("Error: Note with ID " ++ str_int k ++ " was not found.")%string in
  let failure (message : string) :=
    ("Error deleting note: " ++ message)%string in
  (out = Text (success note_id) \/ out = Text (not_found note_id)
   \/ exists message, out = Text (failure message))
  /\ (forall response,
        answer = inr response -> status_code response = 404 ->
        out = Text (not_found note_id))
  /\ (forall response,
        answer = inr response -> is_success response = true ->
        out = Text (success note_id))
  /\ (forall response,
        answer = inr response -> status_code response <> 404 ->
        is_success response = false ->
        out = Text (failure (HTTPStatusError_message response)))
  /\ (forall message, answer = inl message -> out = Text (failure message))
  /\ (forall a b message,
        not_found a <> success b
        /\ not_found a <> failure message
        /\ success b <> failure message).
Proof.
  intros answer out success not_found failure.
  assert (Hout :
    out = Text match answer with
               | inl message => failure message
               | inr response =>
                   if status_code response =? 404 then not_found note_id
                   else if is_success response then success note_id
                        else failure (HTTPStatusError_message response)
               end).
  { unfold out, delete_note_by_id, answer.
    destruct (client_delete _) as [message|response]; simpl; [reflexivity|].
    destruct (status_code response =? 404); simpl; [reflexivity|].
    unfold raise_for_status. now destruct (is_success response). }
  repeat split.
  - rewrite Hout. destruct answer as [message|response].
    + right. right. now exists message.
    + destruct (status_code response =? 404); [now (right; left)|].
      destruct (is_success response); [now left|].
      right. right. now eexists.
  - intros response E H404. rewrite Hout, E.
    apply Z.eqb_eq in H404. now rewrite H404.
  - intros response E Hok. rewrite Hout, E, Hok.
    destruct (Z.eqb_spec (status_code response) 404) as [H404|_];
      [|reflexivity].
    unfold is_success in Hok. rewrite H404 in Hok. discriminate.
  - intros response E H404 Hko. rewrite Hout, E, Hko.
    apply Z.eqb_neq in H404. now rewrite H404.
  - intros message E. now rewrite Hout, E.
  - unfold not_found, success. simpl. discriminate.
  - unfold not_found, failure. simpl. discriminate.
  - unfold success, failure. simpl. discriminate.
Qed.

Lemma ids_fresh_among_stored_witness :
  In 1 (rowids (run reuse_history []))
  /\ 1 < next_rowid (run reuse_history []).
Proof.
  split.
  - simpl. now left.
  - apply (ids_fresh_among_stored reuse_history 4
             {| nc_title := "E"; nc_content := "F" |}).
    simpl. now left.
Defined.

Lemma delete_note_by_id_outcomes_witness :
  status_code {| status_code := 404; body := None |} = 404
  /\ delete_note_by_id (fun _ => "Client error")
       (fun _ => inr {| status_code := 404; body := None |}) 5
     = Text "Error: Note with ID 5 was not found.".
Proof.
  split.
  - reflexivity.
  - pose proof (delete_note_by_id_outcomes (fun _ => "Client error")
                  (fun _ => inr {| status_code := 404; body := None |}) 5)
      as H.
    cbv zeta in H. destruct H as [_ [H _]].
    apply (H {| status_code := 404; body := None |}); reflexivity.
Defined.

(** ** Concrete runs *)

Example create_note_on_empty :
  get_db 5 (create_note {| nc_title := "A"; nc_content := "B" |}) []
  = (Ok {| id := Some 1; title := Some "A"; content := Some "B";
           created_at := Some 5 |},
     [mkRow 1 (Some "A") (Some "B") (Some 5)]).
Proof. reflexivity. Qed.

Example delete_note_on_empty :
  get_db 5 (delete_note 999999) []
  = (Raised (HTTPException 404 "Note not found"), []).
Proof. reflexivity. Qed.

Example delete_note_first_of_two :
  get_db 9 (delete_note 1) two_notes
  = (Ok {| ack_status := "success"; ack_message := "Note deleted" |},
     [mkRow 2 (Some "C") (Some "D") (Some 8)]).
Proof. reflexivity. Qed.

Example read_notes_limit_one :
  get_db 9 (read_notes 0 1) two_notes
  = (Ok [{| id := Some 1; title := Some "A"; content := Some "B";
            created_at := Some 7 |}],
     two_notes).
Proof. reflexivity. Qed.

Example read_notes_skip_one :
  get_db 9 (read_notes 1 100) two_notes
  = (Ok [{| id := Some 2; title := Some "C"; content := Some "D";
            created_at := Some 8 |}],
     two_notes).
Proof. reflexivity. Qed.

(** A negative skip skips nothing and a negative limit bounds nothing. *)
Example read_notes_negative :
  get_db 9 (read_notes (-1) (-1)) two_notes = (Ok (map load two_notes), two_notes).
Proof. reflexivity. Qed.

Example create_new_note_success :
  create_new_note (fun r => str_int (status_code r)) (fun _ => "?")
    (AsyncClient_post (fun _ => "2026-01-01T00:00:00") delivered 5 two_notes)
    "E" "F"
  = Text "Success! Note created with ID 3.".
Proof. reflexivity. Qed.

Example create_new_note_empty_title :
  create_new_note (fun r => str_int (status_code r)) (fun _ => "?")
    (AsyncClient_post (fun _ => "2026-01-01T00:00:00") delivered 5 two_notes)
    EmptyString "F"
  = Text "Error connecting to Notes App: 422".
Proof. reflexivity. Qed.

Example create_new_note_unreachable :
  create_new_note (fun r => str_int (status_code r)) (fun _ => "?")
    (AsyncClient_post (fun _ => "2026-01-01T00:00:00")
       (failed "All connection attempts failed") 5 two_notes)
    "E" "F"
  = Text "Error connecting to Notes App: All connection attempts failed".
Proof. reflexivity. Qed.

(** Only [httpx.HTTPError] is caught: behind a server that answers 200
    with a body that is not JSON, which the API never does, the
    [JSONDecodeError] of [response.json()] leaves the tool. *)
Example create_new_note_foreign_server :
  create_new_note (fun r => str_int (status_code r)) (fun _ => "?")
    (fun _ _ => inr {| status_code := 200; body := None |}) "E" "F"
  = Propagated JSONDecodeError.
Proof. reflexivity. Qed.

Example delete_note_by_id_success :
  delete_note_by_id (fun r => str_int (status_code r))
    (fun _ => inr (fst (DELETE_notes 9 1 two_notes))) 1
  = Text "Note 1 has been deleted.".
Proof. reflexivity. Qed.

Example delete_note_by_id_not_found :
  delete_note_by_id (fun r => str_int (status_code r))
    (fun _ => inr (fst (DELETE_notes 9 5 two_notes))) 5
  = Text "Error: Note with ID 5 was not found.".
Proof. reflexivity. Qed.

Example delete_note_by_id_server_error :
  delete_note_by_id (fun r => str_int (status_code r))
    (fun _ => inr {| status_code := 500; body := None |}) 5
  = Text "Error deleting note: 500".
Proof. reflexivity. Qed.

(** ** Further properties of the handlers *)

Lemma without_fresh (k : Z) (tbl : Table) :
  ~ In k (rowids tbl) -> without k tbl = tbl.
Proof.
  intros Hn. unfold without. apply forallb_filter_id.
  apply forallb_forall. intros r Hr. apply negb_true_iff, Z.eqb_neq.
  intros E. apply Hn. unfold rowids. apply in_map_iff. now exists r.
Qed.

Lemma next_rowid_fresh (tbl : Table) : ~ In (next_rowid tbl) (rowids tbl).
Proof.
  unfold rowids. rewrite in_map_iff. intros [r [E Hr]].
  pose proof (next_rowid_above tbl r Hr). lia.
Qed.

Lemma firstn_plus {A} (a b : nat) (l : list A) :
  firstn (a + b) l = firstn a l ++ firstn b (skipn a l).
Proof.
  revert l. induction a as [|a IH]; intros l; [reflexivity|].
  destruct l as [|x l]; simpl.
  - now rewrite firstn_nil.
  - now rewrite IH.
Qed.

Lemma max_rowid_in (tbl : Table) (m : Z) :
  max_rowid tbl = Some m -> In m (rowids tbl).
Proof.
  destruct tbl as [|r0 rs]; simpl; [discriminate|]. intros [= <-].
  induction rs as [|a rs IH]; simpl; [now left|].
  destruct (Z.max_spec (rowid a) (fold_right Z.max (rowid r0) (rowids rs)))
    as [[_ ->]|[_ ->]].
  - destruct IH as [E|Hin]; [now left|right; now right].
  - right. now left.
Qed.

Lemma next_rowid_fits (tbl : Table) :
  below_ceiling tbl -> sqlite_int (next_rowid tbl) = true.
Proof.
  intros Hb. apply sqlite_int_spec. unfold next_rowid.
  destruct (max_rowid tbl) as [m|] eqn:E; [|lia].
  apply max_rowid_in in E. unfold below_ceiling in Hb.
  rewrite Forall_forall in Hb. specialize (Hb m E). lia.
Qed.

Lemma step_ids_bounded (tbl : Table) (served : datetime * request) (B : Z) :
  0 <= B ->
  Forall (fun k => k <= B) (rowids tbl) ->
  Forall (fun k => k <= B + 1) (rowids (step tbl served)).
Proof.
  intros HB Hall.
  assert (Hweak : Forall (fun k => k <= B + 1) (rowids tbl)).
  { eapply Forall_impl; [|exact Hall]. simpl. intros k Hk. lia. }
  destruct served as [now [note|skip lim|note_id]].
  - simpl. rewrite create_note_get_db. simpl. unfold rowids.
    rewrite map_app. apply Forall_app. split; [exact Hweak|].
    constructor; [|constructor]. simpl. unfold next_rowid.
    destruct (max_rowid tbl) as [m|] eqn:E; [|lia].
    apply max_rowid_in in E. rewrite Forall_forall in Hall.
    specialize (Hall m E). lia.
  - simpl. now rewrite read_notes_get_db.
  - rewrite step_delete. destruct (sqlite_int note_id); [|exact Hweak].
    now apply rowids_filter_Forall.
Qed.

(** The ids of a table built from the empty one are bounded by the number
    of requests served: the rowid ceiling is out of reach of any history
    shorter than 2^63-1. *)
Lemma run_ids_bounded (history : list (datetime * request)) :
  Forall (fun k => k <= Z.of_nat (List.length history))
    (rowids (run history [])).
Proof.
  assert (H : forall tbl B,
             0 <= B -> Forall (fun k => k <= B) (rowids tbl) ->
             Forall (fun k => k <= B + Z.of_nat (List.length history))
               (rowids (run history tbl))).
  { induction history as [|served rest IH]; intros tbl B HB Hall.
    - simpl. eapply Forall_impl; [|exact Hall]. simpl. intros k Hk. lia.
    - change (run (served :: rest) tbl) with (run rest (step tbl served)).
      replace (B + Z.of_nat (List.length (served :: rest)))
        with ((B + 1) + Z.of_nat (List.length rest))
        by (cbn [List.length]; lia).
      apply IH; [lia|]. now apply step_ids_bounded. }
  apply (H [] 0); [lia|constructor].
Qed.

(** X1.  On a table the service has built, a created note is the last of
    the list: the page that skips the earlier rows holds exactly the note
    [create_note] returned, and a page from the start holds it, after the
    earlier notes, as soon as its limit (a 64-bit integer) exceeds their
    number. *)
Theorem created_note_is_listed_last
  (history : list (datetime * request)) (now now' : datetime)
  (note : NoteCreate) (lim : Z) :
  Z.of_nat (List.length (run history [])) < lim ->
  lim < 9223372036854775808 ->
  exists n tbl',
    get_db now (create_note note) (run history []) = (Ok n, tbl')
    /\ get_db now'
         (read_notes (Z.of_nat (List.length (run history []))) 1) tbl'
       = (Ok [n], tbl')
    /\ get_db now' (read_notes 0 lim) tbl'
       = (Ok (map load (run history []) ++ [n]), tbl').
Proof.
  intros Hlim Hmax. eexists. eexists. split; [apply create_note_get_db|].
  rewrite !read_notes_in_range
    by (try reflexivity; apply sqlite_int_spec; lia).
  unfold limit, offset. split.
  - rewrite Nat2Z.id, skipn_app, skipn_all, Nat.sub_diag. reflexivity.
  - destruct (Z.ltb_spec lim 0) as [Hneg|_]; [lia|].
    simpl skipn. rewrite firstn_all2.
    + now rewrite map_app.
    + rewrite length_app. simpl. lia.
Qed.

Lemma created_note_is_listed_last_witness :
  Z.of_nat (List.length (run reuse_history [])) < 100
  /\ 100 < 9223372036854775808
  /\ exists n tbl',
       get_db 9 (create_note {| nc_title := "E"; nc_content := "F" |})
         (run reuse_history [])
       = (Ok n, tbl')
       /\ get_db 10
            (read_notes (Z.of_nat (List.length (run reuse_history []))) 1)
            tbl'
          = (Ok [n], tbl')
       /\ get_db 10 (read_notes 0 100) tbl'
          = (Ok (map load (run reuse_history []) ++ [n]), tbl').
Proof.
  split; [simpl; lia|]. split; [lia|].
  apply (created_note_is_listed_last reuse_history 9 10
           {| nc_title := "E"; nc_content := "F" |} 100).
  - simpl. lia.
  - lia.
Defined.

(** X2.  On a table below the rowid ceiling, deleting the id a create has
    just returned gives back the table of before the create, row for
    row. *)
Theorem create_then_delete_restores
  (now now' : datetime) (note : NoteCreate) (tbl : Table) :
  below_ceiling tbl ->
  exists n k tbl',
    get_db now (create_note note) tbl = (Ok n, tbl')
    /\ id n = Some k
    /\ get_db now' (delete_note k) tbl'
       = (Ok {| ack_status := "success"; ack_message := "Note deleted" |},
          tbl).
Proof.
  intros Hb.
  exists (load (created_row now note tbl)), (next_rowid tbl).
  eexists. split; [apply create_note_get_db|]. split; [reflexivity|].
  rewrite delete_note_present.
  - f_equal. unfold without. rewrite filter_app. simpl.
    rewrite Z.eqb_refl. simpl. rewrite app_nil_r.
    apply (without_fresh (next_rowid tbl) tbl), next_rowid_fresh.
  - now apply next_rowid_fits.
  - unfold rowids. rewrite map_app. apply in_or_app. right. now left.
Qed.

Lemma two_notes_below_ceiling : below_ceiling two_notes.
Proof. repeat constructor; simpl; lia. Defined.

Lemma create_then_delete_restores_witness :
  below_ceiling two_notes
  /\ exists n k tbl',
       get_db 9 (create_note {| nc_title := "E"; nc_content := "F" |})
         two_notes
       = (Ok n, tbl')
       /\ id n = Some k
       /\ get_db 10 (delete_note k) tbl'
          = (Ok {| ack_status := "success"; ack_message := "Note deleted" |},
             two_notes).
Proof.
  split; [exact two_notes_below_ceiling|].
  exact (create_then_delete_restores 9 10
           {| nc_title := "E"; nc_content := "F" |} two_notes
           two_notes_below_ceiling).
Defined.

(** X3.  The size of a page: for a skip and a limit that are not negative
    and fit a 64-bit integer, [read_notes] returns the rows left after
    the skip, up to the limit, and never more notes than the limit. *)
Theorem read_notes_page_size
  (now : datetime) (skip lim : Z) (tbl : Table) :
  0 <= skip < 9223372036854775808 ->
  0 <= lim < 9223372036854775808 ->
  exists notes,
    get_db now (read_notes skip lim) tbl = (Ok notes, tbl)
    /\ Z.of_nat (List.length notes)
       = Z.min lim (Z.max 0 (Z.of_nat (List.length tbl) - skip))
    /\ Z.of_nat (List.length notes) <= lim.
Proof.
  intros Hs Hl. eexists.
  split; [apply read_notes_in_range; apply sqlite_int_spec; lia|].
  unfold limit, offset.
  destruct (Z.ltb_spec lim 0) as [Hneg|_]; [lia|].
  rewrite length_map, length_firstn, length_skipn. lia.
Qed.

Lemma read_notes_page_size_witness :
  0 <= 1 < 9223372036854775808 /\ 0 <= 5 < 9223372036854775808
  /\ exists notes,
       get_db 9 (read_notes 1 5) two_notes = (Ok notes, two_notes)
       /\ Z.of_nat (List.length notes)
          = Z.min 5 (Z.max 0 (Z.of_nat (List.length two_notes) - 1))
       /\ Z.of_nat (List.length notes) <= 5.
Proof.
  split; [lia|]. split; [lia|].
  apply (read_notes_page_size 9 1 5 two_notes); lia.
Defined.

(** X4.  Consecutive pages join: for a skip and limits that are not
    negative, with [skip + a] and [a + b] still 64-bit integers, the page
    of limit [a] from [skip], followed by the page of limit [b] from
    [skip + a], is the page of limit [a + b] from [skip]; no note is lost
    or repeated at the seam. *)
Theorem read_notes_pages_join
  (now : datetime) (skip a b : Z) (tbl : Table) :
  0 <= skip -> 0 <= a -> 0 <= b ->
  skip + a < 9223372036854775808 -> a + b < 9223372036854775808 ->
  exists first second,
    get_db now (read_notes skip a) tbl = (Ok first, tbl)
    /\ get_db now (read_notes (skip + a) b) tbl = (Ok second, tbl)
    /\ get_db now (read_notes skip (a + b)) tbl = (Ok (first ++ second), tbl).
Proof.
  intros Hs Ha Hb Hsa Hab. eexists. eexists.
  split; [apply read_notes_in_range; apply sqlite_int_spec; lia|].
  split; [apply read_notes_in_range; apply sqlite_int_spec; lia|].
  rewrite read_notes_in_range by (apply sqlite_int_spec; lia).
  unfold limit, offset.
  destruct (Z.ltb_spec a 0) as [H|_]; [lia|].
  destruct (Z.ltb_spec b 0) as [H|_]; [lia|].
  destruct (Z.ltb_spec (a + b) 0) as [H|_]; [lia|].
  rewrite <- map_app.
  replace (Z.to_nat (a + b)) with (Z.to_nat a + Z.to_nat b)%nat by lia.
  replace (Z.to_nat (skip + a)) with (Z.to_nat a + Z.to_nat skip)%nat by lia.
  now rewrite firstn_plus, skipn_skipn.
Qed.

Lemma read_notes_pages_join_witness :
  0 <= 0 /\ 0 <= 1 /\ 0 <= 1
  /\ 0 + 1 < 9223372036854775808 /\ 1 + 1 < 9223372036854775808
  /\ exists first second,
       get_db 9 (read_notes 0 1) two_notes = (Ok first, two_notes)
       /\ get_db 9 (read_notes (0 + 1) 1) two_notes = (Ok second, two_notes)
       /\ get_db 9 (read_notes 0 (1 + 1)) two_notes
          = (Ok (first ++ second), two_notes).
Proof.
  split; [lia|]. split; [lia|]. split; [lia|]. split; [lia|]. split; [lia|].
  apply (read_notes_pages_join 9 0 1 1 two_notes); lia.
Defined.

Lemma without_comm (a b : Z) (tbl : Table) :
  without a (without b tbl) = without b (without a tbl).
Proof.
  unfold without. induction tbl as [|r rs IH]; [reflexivity|]. simpl.
  destruct (rowid r =? b) eqn:Eb; destruct (rowid r =? a) eqn:Ea; simpl;
    rewrite ?Ea, ?Eb; simpl; now rewrite IH.
Qed.

(** X5.  Deletes commute and repeat without effect: two deletes leave the
    same table in either order, and a delete served twice leaves the
    table of the first. *)
Theorem deletes_commute (now1 now2 now3 now4 : datetime) (a b : Z)
  (tbl : Table) :
  run [(now1, Delete a); (now2, Delete b)] tbl
  = run [(now3, Delete b); (now4, Delete a)] tbl
  /\ run [(now1, Delete a); (now2, Delete a)] tbl = run [(now1, Delete a)] tbl.
Proof.
  unfold run. cbn [fold_left]. rewrite !step_delete. split.
  - destruct (sqlite_int a); destruct (sqlite_int b); try reflexivity.
    apply without_comm.
  - destruct (sqlite_int a); [|reflexivity].
    apply without_fresh, without_absent.
Qed.

Lemma without_length (n : Z) (tbl : Table) :
  NoDup (rowids tbl) -> In n (rowids tbl) ->
  S (List.length (without n tbl)) = List.length tbl
  /\ List.length (filter (fun r => rowid r =? n) tbl) = 1%nat.
Proof.
  induction tbl as [|r rs IH]; simpl; [contradiction|].
  intros Hnd Hin. inversion Hnd as [|? ? Hnotin Hnd']; subst.
  unfold without in *. simpl.
  destruct (Z.eqb_spec (rowid r) n) as [E|Hne]; simpl.
  - subst n. fold (without (rowid r) rs).
    rewrite (without_fresh (rowid r) rs Hnotin). split; [reflexivity|].
    f_equal. apply length_zero_iff_nil.
    destruct (filter (fun x => rowid x =? rowid r) rs) as [|x xs] eqn:F;
      [reflexivity|].
    exfalso. assert (Hx : In x (filter (fun x => rowid x =? rowid r) rs))
      by (rewrite F; now left).
    apply filter_In in Hx. destruct Hx as [Hx Ex]. apply Z.eqb_eq in Ex.
    apply Hnotin. unfold rowids. apply in_map_iff. now exists x.
  - destruct Hin as [E|Hin]; [contradiction|].
    destruct (IH Hnd' Hin) as [H1 H2]. split; [now rewrite H1|exact H2].
Qed.

(** X6.  On a table the service has built, a successful delete removes
    one row and only one: exactly one stored note bears the id (a 64-bit
    integer, as every stored id is), and the table is one row shorter
    afterwards. *)
Theorem delete_note_removes_one_row
  (history : list (datetime * request)) (now : datetime) (n : Z) :
  sqlite_int n = true ->
  In n (rowids (run history [])) ->
  exists tbl',
    get_db now (delete_note n) (run history [])
    = (Ok {| ack_status := "success"; ack_message := "Note deleted" |}, tbl')
    /\ S (List.length tbl') = List.length (run history [])
    /\ List.length (filter (fun r => rowid r =? n) (run history [])) = 1%nat.
Proof.
  intros Hfit Hin. exists (without n (run history [])).
  split; [now apply delete_note_present|].
  apply without_length; [|exact Hin].
  apply sorted_NoDup. exact (proj1 (run_ascending history [] ascending_nil)).
Qed.

Lemma delete_note_removes_one_row_witness :
  sqlite_int 1 = true
  /\ In 1 (rowids (run reuse_history []))
  /\ exists tbl',
       get_db 9 (delete_note 1) (run reuse_history [])
       = (Ok {| ack_status := "success"; ack_message := "Note deleted" |},
          tbl')
       /\ S (List.length tbl') = List.length (run reuse_history [])
       /\ List.length
            (filter (fun r => rowid r =? 1) (run reuse_history [])) = 1%nat.
Proof.
  split; [reflexivity|]. split.
  - simpl. now left.
  - apply (delete_note_removes_one_row reuse_history 9 1); [reflexivity|].
    simpl. now left.
Defined.

Lemma step_rows (tbl : Table) (served : datetime * request) (r : Row) :
  In r (step tbl served) ->
  In r tbl
  \/ exists now note,
       served = (now, Create note) /\ r = created_row now note tbl.
Proof.
  destruct served as [now [note|skip lim|note_id]]; intros Hin.
  - simpl in Hin. rewrite create_note_get_db in Hin. simpl in Hin.
    apply in_app_or in Hin. destruct Hin as [Hin|[<-|[]]]; [now left|].
    right. now exists now, note.
  - simpl in Hin. rewrite read_notes_get_db in Hin. now left.
  - rewrite step_delete in Hin. left.
    destruct (sqlite_int note_id); [|exact Hin].
    unfold without in Hin. now apply filter_In in Hin.
Qed.

Lemma run_rows (history : list (datetime * request)) (tbl : Table) (r : Row) :
  In r (run history tbl) ->
  In r tbl
  \/ exists now note,
       In (now, Create note) history
       /\ row_title r = Some (nc_title note)
       /\ row_content r = Some (nc_content note)
       /\ row_created_at r = Some now.
Proof.
  revert tbl. induction history as [|served rest IH]; intros tbl Hin.
  - now left.
  - change (run (served :: rest) tbl) with (run rest (step tbl served)) in Hin.
    destruct (IH _ Hin) as [Hstep|[now [note [Hrest Hr]]]].
    + destruct (step_rows tbl served r Hstep) as [H|[now [note [-> ->]]]];
        [now left|].
      right. exists now, note. split; [now left|]. now repeat split.
    + right. exists now, note. split; [now right|exact Hr].
Qed.

Lemma find_app_some (k : Z) (tbl more : Table) (r : Row) :
  find (fun x => rowid x =? k) tbl = Some r ->
  find (fun x => rowid x =? k) (tbl ++ more) = Some r.
Proof.
  induction tbl as [|a tbl IH]; simpl; [discriminate|].
  destruct (rowid a =? k); [tauto|exact IH].
Qed.

Lemma find_without (k d : Z) (tbl : Table) :
  k <> d ->
  find (fun x => rowid x =? k) (without d tbl)
  = find (fun x => rowid x =? k) tbl.
Proof.
  intros Hne. unfold without. induction tbl as [|a tbl IH]; [reflexivity|].
  simpl. destruct (Z.eqb_spec (rowid a) d) as [Ed|_]; simpl.
  - destruct (Z.eqb_spec (rowid a) k) as [Ek|_]; [congruence|exact IH].
  - destruct (rowid a =? k); [reflexivity|exact IH].
Qed.

Lemma find_step (tbl : Table) (served : datetime * request) (k : Z) (r : Row) :
  find (fun x => rowid x =? k) tbl = Some r ->
  (forall now, served <> (now, Delete k)) ->
  find (fun x => rowid x =? k) (step tbl served) = Some r.
Proof.
  intros Hf Hnd. destruct served as [now [note|skip lim|note_id]].
  - simpl. rewrite create_note_get_db. simpl. now apply find_app_some.
  - simpl. now rewrite read_notes_get_db.
  - rewrite step_delete. destruct (sqlite_int note_id); [|exact Hf].
    rewrite find_without; [exact Hf|].
    intros E. apply (Hnd now). now subst.
Qed.

(** X7.  No request edits a stored note: the row stored under an id
    stays the same row, with the same title, content and creation time,
    through every history of requests that does not delete that id.
    Creates, lists and deletes of other ids leave it as it is. *)
Theorem stored_note_never_changes
  (history : list (datetime * request)) (tbl : Table) (k : Z) (r : Row) :
  find (fun x => rowid x =? k) tbl = Some r ->
  (forall now, ~ In (now, Delete k) history) ->
  find (fun x => rowid x =? k) (run history tbl) = Some r.
Proof.
  revert tbl. induction history as [|served rest IH]; intros tbl Hf Hnd.
  - exact Hf.
  - change (run (served :: rest) tbl) with (run rest (step tbl served)).
    apply IH.
    + apply find_step; [exact Hf|].
      intros now E. apply (Hnd now). left. exact E.
    + intros now Hin. apply (Hnd now). now right.
Qed.

Lemma stored_note_never_changes_witness :
  find (fun x => rowid x =? 1) two_notes
  = Some (mkRow 1 (Some "A") (Some "B") (Some 7))
  /\ (forall now,
        ~ In (now, Delete 1)
            [(10, Delete 2);
             (11, Create {| nc_title := "E"; nc_content := "F" |});
             (12, Read 0 100)])
  /\ find (fun x => rowid x =? 1)
       (run [(10, Delete 2);
             (11, Create {| nc_title := "E"; nc_content := "F" |});
             (12, Read 0 100)] two_notes)
     = Some (mkRow 1 (Some "A") (Some "B") (Some 7)).
Proof.
  assert (H : forall now,
             ~ In (now, Delete 1)
                 [(10, Delete 2);
                  (11, Create {| nc_title := "E"; nc_content := "F" |});
                  (12, Read 0 100)]).
  { intros now [E|[E|[E|[]]]]; discriminate. }
  split; [reflexivity|]. split; [exact H|].
  apply (stored_note_never_changes
           [(10, Delete 2);
            (11, Create {| nc_title := "E"; nc_content := "F" |});
            (12, Read 0 100)] two_notes 1
           (mkRow 1 (Some "A") (Some "B") (Some 7))); [reflexivity|exact H].
Defined.

(** ** The list route and the search tool *)

Lemma append_assoc (a b c : string) :
  ((a ++ b) ++ c)%string = (a ++ b ++ c)%string.
Proof. induction a as [|x a IH]; simpl; [reflexivity|now rewrite IH]. Qed.

Lemma sorted_firstn (n : nat) (l : list Z) :
  StronglySorted Z.lt l -> StronglySorted Z.lt (firstn n l).
Proof.
  revert l. induction n as [|n IH]; intros l Hs; [constructor|].
  destruct l as [|x l]; [constructor|]. simpl.
  inversion Hs as [|? ? Hs' Hx]; subst. constructor; [now apply IH|].
  rewrite Forall_forall in *. intros y Hy. apply Hx.
  rewrite <- (firstn_skipn n l). apply in_or_app. now left.
Qed.

Lemma sorted_skipn (n : nat) (l : list Z) :
  StronglySorted Z.lt l -> StronglySorted Z.lt (skipn n l).
Proof.
  revert l. induction n as [|n IH]; intros l Hs; [exact Hs|].
  destruct l as [|x l]; [constructor|]. simpl.
  inversion Hs; subst. now apply IH.
Qed.

Lemma page_sorted (skip lim : Z) (tbl : Table) :
  StronglySorted Z.lt (rowids tbl) ->
  StronglySorted Z.lt (rowids (limit lim (offset skip tbl))).
Proof.
  intros Hs. unfold limit, offset, rowids.
  destruct (lim <? 0).
  - rewrite <- skipn_map. now apply sorted_skipn.
  - rewrite <- firstn_map, <- skipn_map. now apply sorted_firstn, sorted_skipn.
Qed.

Lemma run_populated (history : list (datetime * request)) :
  populated (run history []).
Proof.
  apply Forall_forall. intros r Hr.
  destruct (run_rows history [] r Hr) as [[]|[now [note [_ [Ht [Hc Hd]]]]]].
  rewrite Ht, Hc, Hd. repeat split; discriminate.
Qed.

Lemma page_populated (skip lim : Z) (tbl : Table) :
  populated tbl -> populated (limit lim (offset skip tbl)).
Proof.
  unfold populated. rewrite !Forall_forall. intros H r Hr.
  apply H. now apply page_incl in Hr.
Qed.

(** What the response shape and the search tool make of populated rows. *)
Lemma populated_responses (isoformat : datetime -> string)
  (py_repr : json -> string) (rows : Table) :
  populated rows ->
  exists rs,
    NoteResponse_validate_all (map load rows) = Some rs
    /\ map nr_id rs = rowids rows
    /\ map (fun r => Some (nr_title r)) rs = map row_title rows
    /\ map (fun r => Some (nr_content r)) rs = map row_content rows
    /\ map (fun r => Some (nr_created_at r)) rs = map row_created_at rows
    /\ forall text,
         note_lines py_repr (map (NoteResponse_json isoformat) rs) text
         = inr (text ++ fold_right append EmptyString (map row_line rows))%string.
Proof.
  induction 1 as [|r rows [Ht [Hc Hd]] _ IH].
  - exists []. repeat split. intros text. simpl.
    f_equal. induction text as [|x text IHt]; simpl; [reflexivity|].
    now rewrite <- IHt.
  - destruct IH as [rs [Hv [Hi [Hts [Hcs [Hds Hl]]]]]].
    destruct r as [k [t|] [c|] [d|]]; simpl in Ht, Hc, Hd; try congruence.
    exists ({| nr_id := k; nr_title := t; nr_content := c;
               nr_created_at := d |} :: rs).
    cbn [map NoteResponse_validate_all].
    change (NoteResponse_validate (load (mkRow k (Some t) (Some c) (Some d))))
      with (Some {| nr_id := k; nr_title := t; nr_content := c;
                    nr_created_at := d |}).
    rewrite Hv.
    repeat split; try (cbn; f_equal; assumption).
    intros text. cbn [note_lines].
    change (note_line py_repr
              (NoteResponse_json isoformat
                 {| nr_id := k; nr_title := t; nr_content := c;
                    nr_created_at := d |}))
      with (@inr exception string
              (row_line (mkRow k (Some t) (Some c) (Some d)))).
    cbn [py_bind]. rewrite Hl. cbn [fold_right]. now rewrite append_assoc.
Qed.

(** X8.  On a table the service has built, the list route answers 200
    for every skip and limit the driver can bind (the defaults 0 and 100
    when left out), never the 500 of a response that fails its shape:
    its body is the JSON of the page, one entry per row with the row's
    id, title, content and creation time, in strictly ascending order of
    id.  For a skip or a limit outside 64 bits the driver's
    [OverflowError] makes it a 500.  The table stays as it was in both
    cases. *)
Theorem GET_notes_lists_page (isoformat : datetime -> string)
  (history : list (datetime * request)) (now : datetime)
  (skip lim : option Z) :
  let tbl := run history [] in
  let page := limit (query_default 100 lim) (offset (query_default 0 skip) tbl) in
  if sqlite_int (query_default 0 skip) && sqlite_int (query_default 100 lim)
  then
    exists rs,
      GET_notes isoformat now skip lim tbl
      = ({| status_code := 200;
            body := Some (JList (map (NoteResponse_json isoformat) rs)) |},
         tbl)
      /\ map nr_id rs = rowids page
      /\ map (fun r => Some (nr_title r)) rs = map row_title page
      /\ map (fun r => Some (nr_content r)) rs = map row_content page
      /\ map (fun r => Some (nr_created_at r)) rs = map row_created_at page
      /\ StronglySorted Z.lt (map nr_id rs)
  else
    GET_notes isoformat now skip lim tbl
    = ({| status_code := 500; body := None |}, tbl).
Proof.
  intros tbl page. unfold GET_notes. rewrite read_notes_get_db.
  unfold page_result.
  destruct (sqlite_int (query_default 0 skip)
            && sqlite_int (query_default 100 lim)); [|reflexivity].
  destruct (populated_responses isoformat (fun _ => EmptyString) page)
    as [rs [Hv [Hi [Ht [Hc [Hd _]]]]]].
  { apply page_populated, run_populated. }
  exists rs. repeat split; try assumption.
  - fold tbl. fold page. now rewrite Hv.
  - rewrite Hi. apply page_sorted.
    exact (proj1 (run_ascending history [] ascending_nil)).
Qed.

(** The text of the search tool against the API. *)
Lemma search_notes_api_text
  (isoformat : datetime -> string)
  (HTTPStatusError_message : Response -> string) (py_repr : json -> string)
  (net : network) (now : datetime) (history : list (datetime * request)) :
  search_notes HTTPStatusError_message py_repr
    (AsyncClient_get isoformat net now (run history []))
  = Text match net with
         | failed message => ("Error reading notes: " ++ message)%string
         | delivered =>
             match run history [] with
             | [] => "The notebook is currently empty."
             | _ :: _ =>
                 ("Here are the current notes:" ++ newline
                    ++ fold_right append EmptyString
                         (map row_line (firstn 100 (run history []))))%string
             end
         end.
Proof.
  destruct net as [|message]; [|reflexivity].
  unfold search_notes, AsyncClient_get. rewrite String.eqb_refl.
  unfold GET_notes. rewrite read_notes_in_range by reflexivity.
  change (limit (query_default 100 None) (offset (query_default 0 None)
                                            (run history [])))
    with (firstn 100 (run history [])).
  destruct (populated_responses isoformat py_repr
              (firstn 100 (run history [])))
    as [rs [Hv [Hi [_ [_ [_ Hl]]]]]].
  { apply (page_populated 0 100), run_populated. }
  rewrite Hv. cbn [fst await py_bind].
  change (raise_for_status HTTPStatusError_message
            {| status_code := 200;
               body := Some (JList (map (NoteResponse_json isoformat) rs)) |})
    with (@inr exception unit tt).
  cbn [py_bind response_json body].
  destruct (run history []) as [|r0 tbl] eqn:E.
  - destruct rs; [reflexivity|discriminate].
  - destruct rs as [|x rs]; [discriminate|].
    change (truthy (JList (map (NoteResponse_json isoformat) (x :: rs))))
      with true.
    cbn [negb iterate py_bind]. rewrite Hl.
    cbn [except_HTTPError]. now rewrite append_assoc.
Qed.

(** X9.  Against the API, behind any network and on any table the service has
    built, the search tool returns text and lets no exception out: the
    error line when the request does not get through, the empty-notebook
    line when no note is stored, and otherwise the heading followed by
    one line per note in the table's order.  It asks for the default
    page, so it shows the first 100 notes and no other. *)
Theorem search_notes_against_api
  (isoformat : datetime -> string)
  (HTTPStatusError_message : Response -> string) (py_repr : json -> string)
  (net : network) (now : datetime) (history : list (datetime * request)) :
  search_notes HTTPStatusError_message py_repr
    (AsyncClient_get isoformat net now (run history []))
  = Text match net with
         | failed message => ("Error reading notes: " ++ message)%string
         | delivered =>
             match run history [] with
             | [] => "The notebook is currently empty."
             | _ :: _ =>
                 ("Here are the current notes:" ++ newline
                    ++ fold_right append EmptyString
                         (map row_line (firstn 100 (run history []))))%string
             end
         end.
Proof.
  exact (search_notes_api_text isoformat HTTPStatusError_message py_repr net
           now history).
Qed.

(** ** The delete tool against the API *)

Lemma strip_prefix_app (p s : string) : strip_prefix p (p ++ s) = Some s.
Proof.
  induction p as [|a p IH]; simpl; [reflexivity|].
  now rewrite Ascii.eqb_refl.
Qed.

Lemma digits_no_slash (d : Decimal.uint) :
  contains "/" (NilEmpty.string_of_uint d) = false.
Proof. induction d; simpl; [reflexivity|exact IHd..]. Qed.

Lemma str_int_no_slash (n : Z) : contains "/" (str_int n) = false.
Proof.
  unfold str_int.
  assert (H : forall d, contains "/" (NilZero.string_of_uint d) = false).
  { intros d. destruct d; try apply (digits_no_slash (_ d)); reflexivity. }
  destruct (Z.to_int n) as [d|d]; simpl NilZero.string_of_int.
  - apply H.
  - cbn [contains]. now rewrite H.
Qed.

Lemma str_int_not_empty (n : Z) : str_int n <> EmptyString.
Proof.
  unfold str_int. destruct (Z.to_int n) as [d|d]; simpl; [|discriminate].
  destruct d; discriminate.
Qed.

(** The id the bridge writes in a URL is the id the API reads from it. *)
Lemma parse_int_str_int (n : Z) : parse_int (str_int n) = Some n.
Proof.
  unfold parse_int, str_int. rewrite NilZero.isi.
  - simpl. now rewrite DecimalZ.of_to.
  - destruct n as [|p|p]; simpl; try discriminate.
    intros [= E]. now apply (DecimalPos.Unsigned.to_uint_nonnil p).
  - destruct n as [|p|p]; simpl; try discriminate.
    intros [= E]. now apply (DecimalPos.Unsigned.to_uint_nonnil p).
Qed.

Lemma serve_DELETE_note_url (now : datetime) (note_id : Z) (tbl : Table) :
  serve_DELETE now (API_BASE_URL ++ "/notes/" ++ str_int note_id)%string tbl
  = DELETE_notes now note_id tbl.
Proof.
  unfold serve_DELETE.
  change (API_BASE_URL ++ "/notes/" ++ str_int note_id)%string
    with ((API_BASE_URL ++ "/notes/") ++ str_int note_id)%string.
  rewrite strip_prefix_app.
  destruct (str_int note_id) as [|a rest] eqn:E.
  - now apply str_int_not_empty in E.
  - rewrite <- E, str_int_no_slash, parse_int_str_int. reflexivity.
Qed.

Lemma DELETE_notes_cases (now : datetime) (note_id : Z) (tbl : Table) :
  DELETE_notes now note_id tbl
  = if sqlite_int note_id then
      if existsb (Z.eqb note_id) (rowids tbl)
      then ({| status_code := 200;
               body := Some (JDict [("status", JStr "success");
                                    ("message", JStr "Note deleted")]) |},
            without note_id tbl)
      else ({| status_code := 404;
               body := Some (JDict [("detail", JStr "Note not found")]) |},
            tbl)
    else ({| status_code := 500; body := None |}, tbl).
Proof.
  unfold DELETE_notes. destruct (sqlite_int note_id) eqn:Hfit.
  - destruct (existsb (Z.eqb note_id) (rowids tbl)) eqn:E.
    + rewrite delete_note_present; [reflexivity|exact Hfit|].
      apply existsb_exists in E. destruct E as [k [Hk Ek]].
      apply Z.eqb_eq in Ek. now subst k.
    + rewrite delete_note_absent; [reflexivity|exact Hfit|].
      intros Hin. rewrite <- not_true_iff_false in E. apply E.
      apply existsb_exists. exists note_id.
      split; [exact Hin|apply Z.eqb_refl].
  - now rewrite delete_note_overflow.
Qed.

(** X11.  Against the API, the delete tool reaches the handler with the
    very id it was given (the URL it builds is read back to that id), and
    its text tells what happened to the table.  For an id the driver can
    bind: the success line when a note bore the id, which is then gone
    from the table; the not-found line when none did, the table being
    untouched.  For an id outside 64 bits the API answers 500 and the
    tool returns the failure line with the status error's message, the
    table being untouched.  The failure line with the transport error's
    message is returned when the request does not get through. *)
Theorem delete_note_by_id_against_api
  (HTTPStatusError_message : Response -> string)
  (net : network) (now : datetime) (tbl : Table) (note_id : Z) :
  serve_DELETE now (API_BASE_URL ++ "/notes/" ++ str_int note_id)%string tbl
  = DELETE_notes now note_id tbl
  /\ snd (DELETE_notes now note_id tbl)
     = (if sqlite_int note_id && existsb (Z.eqb note_id) (rowids tbl)
        then without note_id tbl else tbl)
  /\ delete_note_by_id HTTPStatusError_message
       (AsyncClient_delete net now tbl) note_id
     = Text match net with
            | failed message => ("Error deleting note: " ++ message)%string
            | delivered =>
                if sqlite_int note_id then
                  if existsb (Z.eqb note_id) (rowids tbl)
                  then ("Note " ++ str_int note_id
                          ++ " has been deleted.")%string
                  else ("Error: Note with ID " ++ str_int note_id
                          ++ " was not found.")%string
                else ("Error deleting note: "
                        ++ HTTPStatusError_message
                             {| status_code := 500; body := None |})%string
            end.
Proof.
  split; [apply serve_DELETE_note_url|]. split.
  - rewrite DELETE_notes_cases.
    destruct (sqlite_int note_id); [|reflexivity].
    now destruct (existsb (Z.eqb note_id) (rowids tbl)).
  - destruct net as [|message]; [|reflexivity].
    unfold delete_note_by_id, AsyncClient_delete.
    rewrite serve_DELETE_note_url, DELETE_notes_cases.
    destruct (sqlite_int note_id); [|reflexivity].
    now destruct (existsb (Z.eqb note_id) (rowids tbl)).
Qed.

(** X10.  Behind any server, the search tool turns into its error line what the
    client raises and every answer whose status is not a success, and
    into the empty-notebook line every success whose JSON is falsy (an
    empty list, but also an empty object, null, zero, false or an empty
    text).  It catches nothing else: a success whose body is not JSON, or
    whose first entry lacks one of the keys it reads, lets the exception
    out. *)
Theorem search_notes_edges
  (HTTPStatusError_message : Response -> string) (py_repr : json -> string)
  (client_get : string -> sent) :
  (forall message,
     client_get (API_BASE_URL ++ "/notes/")%string = inl message ->
     search_notes HTTPStatusError_message py_repr client_get
     = Text ("Error reading notes: " ++ message)%string)
  /\ (forall response,
        client_get (API_BASE_URL ++ "/notes/")%string = inr response ->
        is_success response = false ->
        search_notes HTTPStatusError_message py_repr client_get
        = Text ("Error reading notes: "
                  ++ HTTPStatusError_message response)%string)
  /\ (forall response data,
        client_get (API_BASE_URL ++ "/notes/")%string = inr response ->
        is_success response = true ->
        body response = Some data -> truthy data = false ->
        search_notes HTTPStatusError_message py_repr client_get
        = Text "The notebook is currently empty.")
  /\ (forall response,
        client_get (API_BASE_URL ++ "/notes/")%string = inr response ->
        is_success response = true ->
        body response = None ->
        search_notes HTTPStatusError_message py_repr client_get
        = Propagated JSONDecodeError)
  /\ (forall response items rest key,
        client_get (API_BASE_URL ++ "/notes/")%string = inr response ->
        is_success response = true ->
        body response = Some (JList (JDict items :: rest)) ->
        In key ["id"; "title"; "content"] ->
        dict_get items key = None ->
        exists missing,
          search_notes HTTPStatusError_message py_repr client_get
          = Propagated (KeyError missing)
          /\ dict_get items missing = None).
Proof.
  unfold search_notes. repeat split.
  - intros message E. now rewrite E.
  - intros response E Hko. rewrite E. cbn [await py_bind].
    unfold raise_for_status. now rewrite Hko.
  - intros response data E Hok Hb Hf. rewrite E. cbn [await py_bind].
    unfold raise_for_status, response_json. rewrite Hok, Hb.
    cbn [py_bind]. now rewrite Hf.
  - intros response E Hok Hb. rewrite E. cbn [await py_bind].
    unfold raise_for_status, response_json. now rewrite Hok, Hb.
  - intros response items rest key E Hok Hb Hkey Hnone. rewrite E.
    cbn [await py_bind]. unfold raise_for_status, response_json.
    rewrite Hok, Hb.
    cbn [py_bind truthy negb iterate note_lines]. unfold note_line.
    cbn [getitem].
    destruct (dict_get items "id") as [vi|] eqn:Ei;
      [|exists "id"; now split].
    destruct (dict_get items "title") as [vt|] eqn:Et;
      [|exists "title"; now split].
    destruct (dict_get items "content") as [vc|] eqn:Ec;
      [|exists "content"; now split].
    exfalso. simpl in Hkey.
    destruct Hkey as [<-|[<-|[<-|[]]]]; congruence.
Qed.

Lemma search_notes_edges_witness :
  is_success {| status_code := 200; body := Some (JDict []) |} = true
  /\ search_notes (fun r => str_int (status_code r)) (fun _ => "?")
       (fun _ => inr {| status_code := 200; body := Some (JDict []) |})
     = Text "The notebook is currently empty.".
Proof.
  split; [reflexivity|].
  destruct (search_notes_edges (fun r => str_int (status_code r))
              (fun _ => "?")
              (fun _ => inr {| status_code := 200; body := Some (JDict []) |}))
    as [_ [_ [H _]]].
  apply (H {| status_code := 200; body := Some (JDict []) |} (JDict []));
    reflexivity.
Defined.

(** ** The project template *)

Lemma path_eqb_eq (p q : path) : path_eqb p q = true <-> p = q.
Proof.
  revert q. induction p as [|a p IH]; intros [|b q]; simpl;
    try (split; [discriminate|discriminate]); [tauto|].
  rewrite andb_true_iff, String.eqb_eq, IH. split.
  - now intros [-> ->].
  - now intros [= -> ->].
Qed.

Lemma io_bind_ok {A B} (m : IO A) (k : A -> IO B) (w w' : process) (a : A) :
  m w = (inr a, w') -> io_bind m k w = k a w'.
Proof. intros E. unfold io_bind. now rewrite E. Qed.

Lemma io_bind_raised {A B} (m : IO A) (k : A -> IO B) (w w' : process)
  (e : OSError) :
  m w = (inl e, w') -> io_bind m k w = (inl e, w').
Proof. intros E. unfold io_bind. now rewrite E. Qed.

Lemma open_w_ok (p : path) (w : process) :
  stat (files w) (removelast p) = inr Dir ->
  stat (files w) p <> inr Dir ->
  open_w p w
  = (inr tt,
     {| files := update (files w) p (File EmptyString); stdout := stdout w |}).
Proof.
  intros Hp Hn. unfold open_w, io_bind, parent_directory. rewrite Hp.
  destruct (stat (files w) p) as [e|[|c]]; [reflexivity|now elim Hn|reflexivity].
Qed.

Ltac resolve_with Hb Hs :=
  unfold stat, update; simpl; rewrite ?Hb; simpl; rewrite ?Hs; simpl.

Ltac touch_with Hb Hs :=
  erewrite io_bind_ok;
  [|apply open_w_ok;
    [resolve_with Hb Hs; reflexivity
    |resolve_with Hb Hs;
     match goal with
     | H : ?f <> Some Dir |- context [match ?f with _ => _ end] =>
         destruct f as [[|?]|]; [now elim H|discriminate|discriminate]
     end]];
  erewrite io_bind_ok; [|reflexivity].

Lemma touch_files_ok (Path_str : path -> string) (w : process) :
  files w BASE_DIR = Some Dir ->
  files w static_dir = Some Dir ->
  Forall (fun f => files w f <> Some Dir) files_to_create ->
  exists w',
    touch_all Path_str files_to_create w = (inr tt, w')
    /\ (forall q,
          files w' q
          = if existsb (path_eqb q) files_to_create
            then Some (File EmptyString) else files w q)
    /\ stdout w'
       = stdout w
         ++ map (fun f => ("📄 Created empty file: " ++ Path_str f)%string)
              files_to_create.
Proof.
  intros Hb Hs Hf.
  unfold files_to_create, static_dir, BASE_DIR, PROJECT_NAME in *.
  cbn [app] in *.
  repeat match goal with
         | H : Forall _ (_ :: _) |- _ =>
             let H1 := fresh "Hfile" in
             let H2 := fresh "Hrest" in
             inversion H as [|? ? H1 H2]; subst; clear H; rename H2 into H
         end.
  clear Hf. cbn [touch_all].
  do 6 touch_with Hb Hs.
  eexists. split; [reflexivity|]. split.
  - intros q. cbn [files update existsb]. unfold update.
    repeat match goal with
           | |- context [path_eqb q ?p] => destruct (path_eqb q p)
           end; reflexivity.
  - cbn [stdout map]. rewrite <- !app_assoc. reflexivity.
Qed.

Lemma directories_ok (Path_str : path -> string) (w : process)
  (k : unit -> IO unit) :
  (files w BASE_DIR = None \/ files w BASE_DIR = Some Dir) ->
  (files w static_dir = None \/ files w static_dir = Some Dir) ->
  exists w1,
    io_bind (Path_exists BASE_DIR) (fun base_exists =>
    io_bind (if negb base_exists then
               io_bind (Path_mkdir false BASE_DIR) (fun _ =>
               print ("📂 Created directory: " ++ Path_str BASE_DIR)%string)
             else io_ret tt) (fun _ =>
    io_bind (Path_mkdir true static_dir) (fun _ =>
    io_bind (print ("📂 Created directory: " ++ Path_str static_dir)%string)
      k))) w
    = k tt w1
    /\ (forall q,
          files w1 q
          = if path_eqb q BASE_DIR || path_eqb q static_dir then Some Dir
            else files w q)
    /\ exists lines, stdout w1 = stdout w ++ lines.
Proof.
  unfold static_dir, BASE_DIR, PROJECT_NAME. cbn [app].
  intros Hb Hs.
  unfold io_bind, Path_exists, Path_mkdir, parent_directory, print, io_ret,
    io_bind, stat.
  destruct Hb as [Hb|Hb]; destruct Hs as [Hs|Hs]; simpl; rewrite Hb; simpl;
    unfold update; simpl; rewrite ?Hb; simpl; rewrite ?Hs; simpl.
  all: eexists; (split; [reflexivity|]).
  all: (split; [|eexists; simpl; rewrite <- ?app_assoc; reflexivity]).
  all: intros q; simpl.
  all: destruct (path_eqb q ["notes_app"]) eqn:E1;
    destruct (path_eqb q ["notes_app"; "static"]) eqn:E2; simpl;
    try reflexivity.
  all: try (apply path_eqb_eq in E1; subst q; congruence).
  all: apply path_eqb_eq in E2; subst q; congruence.
Qed.

Lemma structured_ready (fs : filesystem) : ready (structured fs).
Proof.
  split; [now right|]. split; [now right|].
  repeat constructor; discriminate.
Qed.

Lemma structure_built (Path_str : path -> string) (w : process) :
  ready (files w) ->
  exists w' lines,
    create_project_structure Path_str w = (inr tt, w')
    /\ (forall q, files w' q = structured (files w) q)
    /\ stdout w'
       = stdout w ++ lines
         ++ [(newline ++ "🚀 Success! Project structure ready in '"
                ++ PROJECT_NAME ++ "'")%string].
Proof.
  intros [Hb [Hs Hf]]. unfold create_project_structure.
  destruct (directories_ok Path_str w
              (fun _ =>
                 io_bind (touch_all Path_str files_to_create) (fun _ =>
                 print (newline ++ "🚀 Success! Project structure ready in '"
                          ++ PROJECT_NAME ++ "'")%string))
              Hb Hs) as [w1 [E [Hq [lines1 Hl1]]]].
  rewrite E. clear E.
  destruct (touch_files_ok Path_str w1) as [w2 [E [Hq2 Hl2]]].
  - now rewrite Hq.
  - now rewrite Hq.
  - unfold files_to_create in *.
    repeat match goal with
           | H : Forall _ (_ :: _) |- _ =>
               let H1 := fresh "Hfile" in
               let H2 := fresh "Hrest" in
               inversion H as [|? ? H1 H2]; subst; clear H; rename H2 into H
           end.
    repeat constructor; rewrite Hq; assumption.
  - erewrite io_bind_ok by exact E.
    eexists. exists (lines1 ++ map (fun f => ("📄 Created empty file: "
                                               ++ Path_str f)%string)
                                files_to_create).
    split; [reflexivity|]. split.
    + intros q. cbn [files print]. rewrite Hq2, Hq. unfold structured.
      destruct (path_eqb q BASE_DIR) eqn:E1.
      { apply path_eqb_eq in E1. now subst q. }
      destruct (path_eqb q static_dir) eqn:E2; [|reflexivity].
      apply path_eqb_eq in E2. now subst q.
    + cbn [stdout print]. rewrite Hl2, Hl1, <- !app_assoc. reflexivity.
Qed.

(** X13.  On a working directory where the project directory and its [static]
    directory are missing or are directories and none of the six files is
    a directory, the script succeeds: afterwards both directories exist,
    each of the six files exists and is empty, whatever it held before,
    every other path is as it was, and the last line printed is the
    success line. *)
Theorem create_project_structure_builds
  (Path_str : path -> string) (w : process) :
  ready (files w) ->
  exists w' lines,
    create_project_structure Path_str w = (inr tt, w')
    /\ (forall q, files w' q = structured (files w) q)
    /\ stdout w'
       = stdout w ++ lines
         ++ [(newline ++ "🚀 Success! Project structure ready in '"
                ++ PROJECT_NAME ++ "'")%string].
Proof. exact (structure_built Path_str w). Qed.

Lemma old_project_ready : ready old_project.
Proof.
  split; [now right|]. split; [now left|].
  repeat constructor; discriminate.
Defined.

Lemma create_project_structure_builds_witness :
  ready old_project
  /\ exists w' lines,
       create_project_structure (String.concat "/")
         {| files := old_project; stdout := [] |}
       = (inr tt, w')
       /\ (forall q, files w' q = structured old_project q)
       /\ stdout w'
          = [] ++ lines
            ++ [(newline ++ "🚀 Success! Project structure ready in '"
                   ++ PROJECT_NAME ++ "'")%string].
Proof.
  split; [exact old_project_ready|].
  exact (create_project_structure_builds (String.concat "/")
           {| files := old_project; stdout := [] |} old_project_ready).
Defined.

(** X14.  Running the script again changes nothing more: after a run that
    succeeded, a second run succeeds too and leaves every path as the
    first run left it. *)
Theorem create_project_structure_again
  (Path_str : path -> string) (w : process) :
  ready (files w) ->
  exists w1 w2,
    create_project_structure Path_str w = (inr tt, w1)
    /\ create_project_structure Path_str w1 = (inr tt, w2)
    /\ forall q, files w2 q = files w1 q.
Proof.
  intros Hr.
  destruct (structure_built Path_str w Hr) as [w1 [l1 [E1 [Hq1 _]]]].
  assert (Hr1 : ready (files w1)).
  { destruct (structured_ready (files w)) as [Hb [Hs Hf]].
    unfold ready. rewrite !Hq1. split; [exact Hb|]. split; [exact Hs|].
    unfold files_to_create in *.
    repeat match goal with
           | H : Forall _ (_ :: _) |- _ =>
               let H1 := fresh "Hfile" in
               let H2 := fresh "Hrest" in
               inversion H as [|? ? H1 H2]; subst; clear H; rename H2 into H
           end.
    repeat constructor; rewrite Hq1; assumption. }
  destruct (structure_built Path_str w1 Hr1) as [w2 [l2 [E2 [Hq2 _]]]].
  exists w1, w2. split; [exact E1|]. split; [exact E2|].
  intros q. rewrite Hq2.
  unfold structured at 1. rewrite !Hq1.
  unfold structured.
  destruct (path_eqb q BASE_DIR || path_eqb q static_dir); [reflexivity|].
  now destruct (existsb (path_eqb q) files_to_create).
Qed.

Lemma create_project_structure_again_witness :
  ready old_project
  /\ exists w1 w2,
       create_project_structure (String.concat "/")
         {| files := old_project; stdout := [] |}
       = (inr tt, w1)
       /\ create_project_structure (String.concat "/") w1 = (inr tt, w2)
       /\ forall q, files w2 q = files w1 q.
Proof.
  split; [exact old_project_ready|].
  exact (create_project_structure_again (String.concat "/")
           {| files := old_project; stdout := [] |} old_project_ready).
Defined.

(** X15.  When the project path names a regular file, the script neither
    replaces it nor reports it: [exists()] holds, so the directory is not
    made, and making [static] inside it raises [NotADirectoryError] with
    nothing written and nothing printed. *)
Theorem create_project_structure_over_a_file
  (Path_str : path -> string) (w : process) (data : string) :
  files w BASE_DIR = Some (File data) ->
  create_project_structure Path_str w = (inl NotADirectoryError, w).
Proof.
  unfold create_project_structure, static_dir, BASE_DIR, PROJECT_NAME.
  cbn [app]. intros Hb.
  assert (E : Path_exists ["notes_app"] w = (inr true, w)).
  { unfold Path_exists, stat. simpl. now rewrite Hb. }
  rewrite (io_bind_ok _ _ _ _ _ E).
  cbn [negb]. erewrite io_bind_ok; [|reflexivity].
  apply io_bind_raised.
  unfold Path_mkdir. apply io_bind_raised.
  unfold parent_directory, stat. simpl. now rewrite Hb.
Qed.

Lemma create_project_structure_over_a_file_witness :
  update empty_directory BASE_DIR (File "notes") BASE_DIR
  = Some (File "notes")
  /\ create_project_structure (String.concat "/")
       {| files := update empty_directory BASE_DIR (File "notes");
          stdout := [] |}
     = (inl NotADirectoryError,
        {| files := update empty_directory BASE_DIR (File "notes");
           stdout := [] |}).
Proof.
  split; [reflexivity|].
  apply (create_project_structure_over_a_file (String.concat "/")
           {| files := update empty_directory BASE_DIR (File "notes");
              stdout := [] |} "notes").
  reflexivity.
Defined.

(** ** Create, then search *)

Lemma lines_snoc (l : list string) (x : string) :
  fold_right append EmptyString (l ++ [x])
  = (fold_right append EmptyString l ++ x)%string.
Proof.
  induction l as [|a l IH]; simpl.
  - clear. induction x as [|c x IH]; simpl; [reflexivity|now rewrite IH].
  - now rewrite IH, append_assoc.
Qed.

Lemma run_snoc (history : list (datetime * request))
  (served : datetime * request) (tbl : Table) :
  run (history ++ [served]) tbl = step (run history tbl) served.
Proof. unfold run. now rewrite fold_left_app. Qed.

(** X12.  What a create adds, the search tool shows as its last line, as long
    as fewer than 100 notes were stored before; from the hundredth stored
    note on, a new note does not appear in the search text at all. *)
Theorem search_notes_after_create
  (isoformat : datetime -> string)
  (HTTPStatusError_message : Response -> string) (py_repr : json -> string)
  (now now' : datetime) (history : list (datetime * request))
  (note : NoteCreate) :
  let tbl := run history [] in
  let tbl' := run (history ++ [(now, Create note)]) [] in
  exists r,
    tbl' = tbl ++ [r]
    /\ row_title r = Some (nc_title note)
    /\ row_content r = Some (nc_content note)
    /\ search_notes HTTPStatusError_message py_repr
         (AsyncClient_get isoformat delivered now' tbl')
       = Text (if (List.length tbl <? 100)%nat
               then ("Here are the current notes:" ++ newline
                       ++ fold_right append EmptyString (map row_line tbl)
                       ++ row_line r)%string
               else ("Here are the current notes:" ++ newline
                       ++ fold_right append EmptyString
                            (map row_line (firstn 100 tbl)))%string).
Proof.
  intros tbl tbl'. exists (created_row now note tbl).
  assert (E : tbl' = tbl ++ [created_row now note tbl]).
  { unfold tbl'. rewrite run_snoc. simpl. now rewrite create_note_get_db. }
  split; [exact E|]. split; [reflexivity|]. split; [reflexivity|].
  unfold tbl'.
  rewrite (search_notes_api_text isoformat HTTPStatusError_message py_repr
             delivered now' (history ++ [(now, Create note)])).
  fold tbl'. rewrite E.
  destruct (tbl ++ [created_row now note tbl]) as [|r0 rest] eqn:Ne.
  { now destruct tbl. }
  rewrite <- Ne. clear Ne. f_equal. f_equal. f_equal.
  destruct (Nat.ltb_spec (List.length tbl) 100) as [Hlt|Hge].
  - rewrite firstn_all2 by (rewrite length_app; simpl; lia).
    rewrite map_app. cbn [map]. now rewrite lines_snoc.
  - rewrite firstn_app.
    replace (100 - List.length tbl)%nat with 0%nat by lia.
    simpl. now rewrite app_nil_r.
Qed.

(** ** More concrete runs *)

Example search_notes_two_notes :
  search_notes (fun r => str_int (status_code r)) (fun _ => "?")
    (AsyncClient_get (fun _ => "2026-01-01T00:00:00") delivered 9 two_notes)
  = Text ("Here are the current notes:" ++ newline
            ++ "- ID 1 | Title: A | Content: B" ++ newline
            ++ "- ID 2 | Title: C | Content: D" ++ newline)%string.
Proof. reflexivity. Qed.

Example search_notes_empty_table :
  search_notes (fun r => str_int (status_code r)) (fun _ => "?")
    (AsyncClient_get (fun _ => "2026-01-01T00:00:00") delivered 9 [])
  = Text "The notebook is currently empty.".
Proof. reflexivity. Qed.

Example delete_note_by_id_through_the_url :
  delete_note_by_id (fun r => str_int (status_code r))
    (AsyncClient_delete delivered 9 two_notes) 2
  = Text "Note 2 has been deleted."
  /\ snd (serve_DELETE 9 "http://127.0.0.1:8000/notes/2" two_notes)
     = [mkRow 1 (Some "A") (Some "B") (Some 7)].
Proof. split; reflexivity. Qed.

Example serve_DELETE_not_a_number :
  status_code (fst (serve_DELETE 9 "http://127.0.0.1:8000/notes/abc" two_notes))
  = 422.
Proof. reflexivity. Qed.

Example create_project_structure_empty_directory :
  let (result, w) :=
    create_project_structure (String.concat "/")
      {| files := empty_directory; stdout := [] |} in
  result = inr tt
  /\ files w ["notes_app"] = Some Dir
  /\ files w ["notes_app"; "static"] = Some Dir
  /\ files w ["notes_app"; "main.py"] = Some (File EmptyString)
  /\ files w ["notes_app"; "static"; "index.html"] = Some (File EmptyString)
  /\ files w ["notes_app"; "notes.db"] = None
  /\ List.length (stdout w) = 9%nat.
Proof. repeat split. Qed.

Example create_project_structure_old_project :
  let (result, w) :=
    create_project_structure (String.concat "/")
      {| files := old_project; stdout := [] |} in
  result = inr tt
  /\ old_project ["notes_app"; "main.py"] = Some (File "app = FastAPI()")
  /\ files w ["notes_app"; "main.py"] = Some (File EmptyString)
  /\ files w ["notes_app"; "notes.db"] = Some (File "SQLite format 3")
  /\ List.length (stdout w) = 8%nat.
Proof. repeat split. Qed.

Example read_notes_limit_out_of_range :
  get_db 9 (read_notes 0 9223372036854775808) two_notes
  = (Raised OverflowError, two_notes)
  /\ GET_notes (fun _ => "2026-01-01T00:00:00") 9 None
       (Some 9223372036854775808) two_notes
     = ({| status_code := 500; body := None |}, two_notes).
Proof. split; reflexivity. Qed.

Example delete_note_by_id_out_of_range :
  delete_note_by_id (fun r => str_int (status_code r))
    (AsyncClient_delete delivered 9 two_notes) 9223372036854775808
  = Text "Error deleting note: 500".
Proof. reflexivity. Qed.
